(** * libcommon/Backtrace.cpp: signal cause text, frame capture, frame rendering

    A shallow embedding of the functions of [Backtrace.cpp]
    ([backtraceLibUnwind], [signalToErrorMessage], [getCallerAddress],
    [getBacktraceFrames], [backtraceFramesToString]) and the properties the
    specification states about them.

    Conventions of the embedding:
    - [int] values ([sig], [si_code], libunwind return codes) are [Z];
      the code only compares them, so no wrap-around is involved;
    - a [void *] is the [Z] value of the pointer, [nullptr] is [0];
    - a [std::stringstream] is the [string] written so far, [<<] appends;
    - a C string is a [string] (without the terminating NUL), a [char *]
      into it is an offset;
    - what the file takes from system headers and libraries (the values of
      the [SIG*] and [si_code] macros, the preprocessor symbols, libunwind,
      [backtrace_symbols], [abi::__cxa_demangle], the stream formatting of a
      pointer) is a parameter of the definitions. *)

From Stdlib Require Import ZArith String Ascii List Bool Lia.
From Stdlib Require Import HexString DecimalString.
Import ListNotations.

Local Open Scope string_scope.
Local Open Scope Z_scope.

(** ** Build configuration and system constants *)

(** The preprocessor symbols the file tests. *)
Record Target : Type := {
  USE_UNWIND : bool;   (* #if USE_UNWIND *)
  x86_64 : bool;       (* defined(__x86_64__) *)
  FreeBSD : bool;      (* defined(__FreeBSD__) *)
  APPLE : bool;        (* defined(__APPLE__) *)
  aarch64 : bool       (* defined(__aarch64__) *)
}.

(** The macros of <signal.h> used as [case] labels.  [BUS_MCEERR_AR] and
    [BUS_MCEERR_AO] are tested with [#if defined], hence optional. *)
Record Signals : Type := {
  SIGSEGV : Z; SIGBUS : Z; SIGILL : Z; SIGFPE : Z;
  SEGV_ACCERR : Z; SEGV_MAPERR : Z;
  BUS_ADRALN : Z; BUS_ADRERR : Z; BUS_OBJERR : Z;
  BUS_MCEERR_AR : option Z; BUS_MCEERR_AO : option Z;
  ILL_ILLOPC : Z; ILL_ILLOPN : Z; ILL_ILLADR : Z; ILL_ILLTRP : Z;
  ILL_PRVOPC : Z; ILL_PRVREG : Z; ILL_COPROC : Z; ILL_BADSTK : Z;
  FPE_INTDIV : Z; FPE_INTOVF : Z; FPE_FLTDIV : Z; FPE_FLTOVF : Z;
  FPE_FLTUND : Z; FPE_FLTRES : Z; FPE_FLTINV : Z; FPE_FLTSUB : Z
}.

(** The fields of [siginfo_t] the file reads. *)
Record siginfo_t : Type := {
  si_addr : Z;   (* void * *)
  si_code : Z    (* int *)
}.

(** The fields of [ucontext_t] the file reads, over all targets; a target
    has only some of them, and the code reads only those. *)
Record ucontext_t : Type := {
  gregs_REG_ERR : Z;   (* uc_mcontext.gregs[REG_ERR],  x86-64 Linux *)
  gregs_REG_RIP : Z;   (* uc_mcontext.gregs[REG_RIP],  x86-64 Linux *)
  mc_rip : Z;          (* uc_mcontext.mc_rip,          x86-64 FreeBSD *)
  ss_rip : Z;          (* uc_mcontext->__ss.__rip,     x86-64 macOS *)
  pc : Z               (* uc_mcontext.pc,              aarch64 *)
}.

Definition nullptr : Z := 0.

(** [reinterpret_cast<void *>(x)] of a 64-bit register value. *)
Definition reinterpret_cast (x : Z) : Z := x mod 2 ^ 64.

(** A [case] label that exists only when its macro is defined. *)
Definition is_case (label : option Z) (x : Z) : bool :=
  match label with
  | Some v => x =? v
  | None => false
  end.

(** ** signalToErrorMessage *)

Section Interpreter.

Variable T : Target.
Variable K : Signals.
(** The stream output of a [const void *], [operator<<] of the C++ library. *)
Variable show_ptr : Z -> string.

(** The block of [case SIGSEGV] writes three texts in a row.  First the
    address. *)
Definition segv_address (info : siginfo_t) : string :=
  if nullptr =? si_addr info
  then "Address: NULL pointer."
  else "Address: " ++ show_ptr (si_addr info).

(** Then, under
    [#if defined(__x86_64__) && !defined(__FreeBSD__) && !defined(__APPLE__)],
    the kind of access. *)
Definition segv_access (context : ucontext_t) : string :=
  if x86_64 T && negb (FreeBSD T) && negb (APPLE T)
  then
    let err_mask := gregs_REG_ERR context in
    if negb (Z.land err_mask 2 =? 0)
    then " Access: write."
    else " Access: read."
  else "".

(** Then the [switch (info.si_code)]. *)
Definition segv_reason (info : siginfo_t) : string :=
  if si_code info =? SEGV_ACCERR K then
    " Attempted access has violated the permissions assigned to the memory area."
  else if si_code info =? SEGV_MAPERR K then
    " Address not mapped to object."
  else
    " Unknown si_code.".

Definition segv_message (info : siginfo_t) (context : ucontext_t) : string :=
  let error := "" in
  let error := error ++ segv_address info in
  let error := error ++ segv_access context in
  error ++ segv_reason info.

(** The block of [case SIGBUS]. *)
Definition bus_message (info : siginfo_t) : string :=
  if si_code info =? BUS_ADRALN K then "Invalid address alignment."
  else if si_code info =? BUS_ADRERR K then "Non-existant physical address."
  else if si_code info =? BUS_OBJERR K then "Object specific hardware error."
  else if is_case (BUS_MCEERR_AR K) (si_code info) then
    "Hardware memory error: action required."
  else if is_case (BUS_MCEERR_AO K) (si_code info) then
    "Hardware memory error: action optional."
  else "Unknown si_code.".

(** The block of [case SIGILL]. *)
Definition ill_message (info : siginfo_t) : string :=
  if si_code info =? ILL_ILLOPC K then "Illegal opcode."
  else if si_code info =? ILL_ILLOPN K then "Illegal operand."
  else if si_code info =? ILL_ILLADR K then "Illegal addressing mode."
  else if si_code info =? ILL_ILLTRP K then "Illegal trap."
  else if si_code info =? ILL_PRVOPC K then "Privileged opcode."
  else if si_code info =? ILL_PRVREG K then "Privileged register."
  else if si_code info =? ILL_COPROC K then "Coprocessor error."
  else if si_code info =? ILL_BADSTK K then "Internal stack error."
  else "Unknown si_code.".

(** The block of [case SIGFPE]. *)
Definition fpe_message (info : siginfo_t) : string :=
  if si_code info =? FPE_INTDIV K then "Integer divide by zero."
  else if si_code info =? FPE_INTOVF K then "Integer overflow."
  else if si_code info =? FPE_FLTDIV K then "Floating point divide by zero."
  else if si_code info =? FPE_FLTOVF K then "Floating point overflow."
  else if si_code info =? FPE_FLTUND K then "Floating point underflow."
  else if si_code info =? FPE_FLTRES K then "Floating point inexact result."
  else if si_code info =? FPE_FLTINV K then "Floating point invalid operation."
  else if si_code info =? FPE_FLTSUB K then "Subscript out of range."
  else "Unknown si_code.".

(** [switch (sig)]: four cases and no [default], so any other signal
    leaves the stream empty. *)
Definition signalToErrorMessage
    (sig : Z) (info : siginfo_t) (context : ucontext_t) : string :=
  if sig =? SIGSEGV K then segv_message info context
  else if sig =? SIGBUS K then bus_message info
  else if sig =? SIGILL K then ill_message info
  else if sig =? SIGFPE K then fpe_message info
  else "".

End Interpreter.

(** ** getCallerAddress *)

(** The preprocessor selects one [return]; with no supported architecture
    the function falls through to [return nullptr]. *)
Definition getCallerAddress (T : Target) (context : ucontext_t) : Z :=
  if x86_64 T then
    if FreeBSD T then reinterpret_cast (mc_rip context)
    else if APPLE T then reinterpret_cast (ss_rip context)
    else reinterpret_cast (gregs_REG_RIP context)
  else if aarch64 T then reinterpret_cast (pc context)
  else nullptr.

(** ** backtraceLibUnwind and getBacktraceFrames *)

(** The part of libunwind the file calls.  [unw_init_local2] and
    [unw_step] return their [int] result together with the cursor they
    leave behind; [unw_get_reg] gives the word it stores for [UNW_REG_IP]
    (its return code is ignored by the caller). *)
Record Unwinder (cursor : Type) : Type := {
  unw_init_local2 : ucontext_t -> Z * cursor;
  unw_get_reg : cursor -> Z;
  unw_step : cursor -> Z * cursor
}.

Arguments unw_init_local2 {cursor} _ _.
Arguments unw_get_reg {cursor} _ _.
Arguments unw_step {cursor} _ _.

Section Walker.

Context {cursor : Type}.
Variable U : Unwinder cursor.

(** The [for] loop of [backtraceLibUnwind]; [remaining] is
    [max_frames - i].  [!unw_step(&cursor)] is true exactly when the
    result is zero: a negative (error) result does not leave the loop. *)
Fixpoint unwind_loop (remaining : nat) (c : cursor) (out_frames : list Z)
  : list Z :=
  match remaining with
  | O => out_frames
  | S remaining' =>
      let ip := unw_get_reg U c in
      let out_frames := (out_frames ++ [reinterpret_cast ip])%list in
      let (r, c') := unw_step U c in
      if r =? 0 then out_frames
      else unwind_loop remaining' c' out_frames
  end.

Definition backtraceLibUnwind (max_frames : nat) (context : ucontext_t)
  : list Z :=
  let out_frames := [] in
  let (r, c) := unw_init_local2 U context in
  if 0 <=? r then unwind_loop max_frames c out_frames
  else out_frames.

(** [static size_t max_frames = 50;] *)
Definition max_frames : nat := 50.

Definition getBacktraceFrames (T : Target) (context : ucontext_t) : list Z :=
  let frames := [] in
  if USE_UNWIND T then
    backtraceLibUnwind max_frames context
  else
    let caller_address := getCallerAddress T context in
    if negb (caller_address =? nullptr)
    then (frames ++ [caller_address])%list
    else frames.

End Walker.

(** ** Predicates on texts *)

(** [contains pat s]: [pat] occurs in [s]. *)
Fixpoint contains (pat s : string) : bool :=
  prefix pat s ||
  match s with
  | EmptyString => false
  | String _ s' => contains pat s'
  end.

(** [ends_with suffix s]: [s] ends in [suffix]. *)
Fixpoint ends_with (suffix s : string) : bool :=
  String.eqb suffix s ||
  match s with
  | EmptyString => false
  | String _ s' => ends_with suffix s'
  end.

(** [c] does not occur in [s]. *)
Definition no_char (c : ascii) (s : string) : Prop :=
  ~ In c (list_ascii_of_string s).

(** ** backtraceFramesToString *)

(** [strchr(s, c)]: the offset of the first [c] in [s], if there is one. *)
Fixpoint strchr (s : string) (c : ascii) : option nat :=
  match s with
  | EmptyString => None
  | String a s' => if Ascii.eqb a c then Some O else option_map S (strchr s' c)
  end.

(** The C string at [s + n]. *)
Fixpoint advance (n : nat) (s : string) : string :=
  match n, s with
  | O, _ => s
  | S n', String _ s' => advance n' s'
  | S _, EmptyString => EmptyString
  end.

(** [stream << i] for a [size_t]: decimal digits. *)
Definition show_size (i : nat) : string :=
  NilZero.string_of_uint (Nat.to_uint i).

Section Symbolizer.

(** The stream output of a [const void *]. *)
Variable show_ptr : Z -> string.
(** [backtrace_symbols(frames.data(), frames.size())] of <execinfo.h>:
    [None] is the null result, otherwise the array of C strings. *)
Variable backtrace_symbols : list Z -> option (list string).
(** [abi::__cxa_demangle(name, 0, 0, &status)]: the returned pointer
    ([None] when null) and the status it stores. *)
Variable cxa_demangle : string -> option string * Z.

(** The search for the mangled name: [Some] when the [if] at the head of
    the loop body is entered, with [name_start] (after [++name_start]),
    [name_end] (both as offsets into [symbol]) and what the demangler
    returned.  When it is [None], [demangled_name] is still [nullptr]. *)
Definition find_name (symbol : string)
  : option (nat * nat * option string * Z) :=
  match strchr symbol "(" with
  | None => None
  | Some lparen =>
      match strchr (advance lparen symbol) "+" with
      | None => None
      | Some k =>
          let name_end := (lparen + k)%nat in
          let name_start := S lparen in
          let (demangled_name, status) :=
            cxa_demangle (substring name_start (name_end - name_start) symbol) in
          Some (name_start, name_end, demangled_name, status)
      end
  end.

(** What one iteration of the loop writes for frame [i]. *)
Definition render_frame (i : nat) (symbol delimiter : string) : string :=
  let backtrace := show_size i ++ ". " in
  match find_name symbol with
  | Some (name_start, name_end, Some demangled_name, status) =>
      if status =? 0 then
        backtrace ++ substring 0 name_start symbol
                  ++ demangled_name ++ advance name_end symbol
      else backtrace ++ symbol ++ delimiter
  | _ => backtrace ++ symbol ++ delimiter
  end.

(** The [for] loop; [remaining] is [frames.size() - i].  Reading
    [symbols[i]] past the end of the array is undefined in C: [None]. *)
Fixpoint render_loop (symbols : list string) (delimiter : string)
    (remaining i : nat) (backtrace : string) : option string :=
  match remaining with
  | O => Some backtrace
  | S remaining' =>
      match nth_error symbols i with
      | None => None
      | Some symbol =>
          render_loop symbols delimiter remaining' (S i)
            (backtrace ++ render_frame i symbol delimiter)
      end
  end.

Definition backtraceFramesToString (frames : list Z) (delimiter : string)
  : option string :=
  let backtrace := "" in
  match backtrace_symbols frames with
  | None =>
      if (0 <? List.length frames)%nat then
        Some (backtrace ++ "No symbols could be found for backtrace starting at "
                        ++ show_ptr (nth 0 frames nullptr))
      else Some backtrace
  | Some symbols =>
      render_loop symbols delimiter (List.length frames) 0 backtrace
  end.

(** The texts the loop writes, one per entry of [symbols]; [i] is the
    index of the first. *)
Fixpoint lines_from (i : nat) (symbols : list string) (delimiter : string)
  : list string :=
  match symbols with
  | [] => []
  | symbol :: rest =>
      render_frame i symbol delimiter :: lines_from (S i) rest delimiter
  end.

Definition rendered_lines (symbols : list string) (delimiter : string)
  : list string :=
  lines_from 0 symbols delimiter.

End Symbolizer.

(** The texts of a list, one after the other. *)
Definition join_lines (lines : list string) : string :=
  fold_right append "" lines.

(** [symbol] is [pre ( name + rest], where the [(] is the first of the
    line and the [+] the first after it: the shape in which the loop
    finds a mangled name. *)
Definition has_name (symbol pre name rest : string) : Prop :=
  symbol = pre ++ String "(" (name ++ String "+" rest) /\
  no_char "(" pre /\ no_char "+" name.

(** ** A concrete target: x86-64 Linux with glibc and libstdc++ *)

Module Linux.

Definition target (use_unwind : bool) : Target :=
  {| USE_UNWIND := use_unwind;
     x86_64 := true; FreeBSD := false; APPLE := false; aarch64 := false |}.

(** The values of <bits/signum-generic.h> and <bits/siginfo-consts.h>. *)
Definition signals : Signals :=
  {| SIGSEGV := 11; SIGBUS := 7; SIGILL := 4; SIGFPE := 8;
     SEGV_ACCERR := 2; SEGV_MAPERR := 1;
     BUS_ADRALN := 1; BUS_ADRERR := 2; BUS_OBJERR := 3;
     BUS_MCEERR_AR := Some 4; BUS_MCEERR_AO := Some 5;
     ILL_ILLOPC := 1; ILL_ILLOPN := 2; ILL_ILLADR := 3; ILL_ILLTRP := 4;
     ILL_PRVOPC := 5; ILL_PRVREG := 6; ILL_COPROC := 7; ILL_BADSTK := 8;
     FPE_INTDIV := 1; FPE_INTOVF := 2; FPE_FLTDIV := 3; FPE_FLTOVF := 4;
     FPE_FLTUND := 5; FPE_FLTRES := 6; FPE_FLTINV := 7; FPE_FLTSUB := 8 |}.

(** libstdc++ prints a pointer in hexadecimal with the base shown, and
    the null pointer as [0]. *)
Definition show_ptr (p : Z) : string :=
  if p =? 0 then "0" else HexString.of_Z p.

Definition context (rip err : Z) : ucontext_t :=
  {| gregs_REG_ERR := err; gregs_REG_RIP := rip;
     mc_rip := 0; ss_rip := 0; pc := 0 |}.

End Linux.

(** A target for which no architecture symbol is defined. *)
Definition unsupported_target : Target :=
  {| USE_UNWIND := false;
     x86_64 := false; FreeBSD := false; APPLE := false; aarch64 := false |}.

(** ** Sample collaborators *)

(** An unwinder whose step never fails and never moves: the cursor stays
    on address [a]. *)
Definition self_referential (a : Z) : Unwinder unit :=
  {| unw_init_local2 := fun _ => (0, tt);
     unw_get_reg := fun _ => a;
     unw_step := fun _ => (1, tt) |}.

(** An unwinder whose cursor cannot be initialised ([UNW_EINVAL]). *)
Definition uninitialisable : Unwinder unit :=
  {| unw_init_local2 := fun _ => (-8, tt);
     unw_get_reg := fun _ => 0;
     unw_step := fun _ => (0, tt) |}.

(** A stack of return addresses: the cursor is the list of the frames
    not yet visited. *)
Definition stack_unwinder (stack : list Z) : Unwinder (list Z) :=
  {| unw_init_local2 := fun _ => (0, stack);
     unw_get_reg := fun c => hd 0 c;
     unw_step := fun c =>
       match tl c with
       | [] => (0, [])
       | rest => (1, rest)
       end |}.

(** A demangler that knows one name. *)
Definition sample_demangle (name : string) : option string * Z :=
  if String.eqb name "_Z3foov" then (Some "foo()", 0) else (None, -2).

(** A symbol table with two functions, as glibc formats its lines. *)
Definition sample_symbol (address : Z) : string :=
  if address =? 4197052 then "./prog(_Z3foov+0x10) [0x400abc]"
  else if address =? 4197100 then "./prog(main+0x2c) [0x400aec]"
  else "[" ++ HexString.of_Z address ++ "]".

Definition sample_symbols (frames : list Z) : option (list string) :=
  Some (map sample_symbol frames).

(** [backtrace_symbols] when its allocation fails. *)
Definition no_symbols (frames : list Z) : option (list string) := None.

(** ** The classification tables, as the specification lists them *)

Definition optional_label (label : option Z) (phrase : string)
  : list (Z * string) :=
  match label with
  | Some v => [(v, phrase)]
  | None => []
  end.

Definition segv_phrases (K : Signals) : list (Z * string) :=
  [ (SEGV_ACCERR K,
     "Attempted access has violated the permissions assigned to the memory area.");
    (SEGV_MAPERR K, "Address not mapped to object.") ].

(** The bus-error table without the entry of [BUS_ADRERR]. *)
Definition bus_phrases (K : Signals) : list (Z * string) :=
  ([ (BUS_ADRALN K, "Invalid address alignment.");
     (BUS_OBJERR K, "Object specific hardware error.") ]
   ++ optional_label (BUS_MCEERR_AR K) "Hardware memory error: action required."
   ++ optional_label (BUS_MCEERR_AO K) "Hardware memory error: action optional."
  )%list.

Definition ill_phrases (K : Signals) : list (Z * string) :=
  [ (ILL_ILLOPC K, "Illegal opcode.");
    (ILL_ILLOPN K, "Illegal operand.");
    (ILL_ILLADR K, "Illegal addressing mode.");
    (ILL_ILLTRP K, "Illegal trap.");
    (ILL_PRVOPC K, "Privileged opcode.");
    (ILL_PRVREG K, "Privileged register.");
    (ILL_COPROC K, "Coprocessor error.");
    (ILL_BADSTK K, "Internal stack error.") ].

Definition fpe_phrases (K : Signals) : list (Z * string) :=
  [ (FPE_INTDIV K, "Integer divide by zero.");
    (FPE_INTOVF K, "Integer overflow.");
    (FPE_FLTDIV K, "Floating point divide by zero.");
    (FPE_FLTOVF K, "Floating point overflow.");
    (FPE_FLTUND K, "Floating point underflow.");
    (FPE_FLTRES K, "Floating point inexact result.");
    (FPE_FLTINV K, "Floating point invalid operation.");
    (FPE_FLTSUB K, "Subscript out of range.") ].

Definition labels (table : list (Z * string)) : list Z := map fst table.

(** All the [case] labels of the bus-error [switch]. *)
Definition bus_labels (K : Signals) : list Z :=
  BUS_ADRERR K :: labels (bus_phrases K).

Definition specialized_signals (K : Signals) : list Z :=
  [SIGSEGV K; SIGBUS K; SIGILL K; SIGFPE K].

(** A C++ [switch] cannot have two equal [case] labels: on every system
    for which the file compiles, the labels of each [switch] differ. *)
Definition distinct_labels (K : Signals) : Prop :=
  NoDup (specialized_signals K) /\
  NoDup (labels (segv_phrases K)) /\
  NoDup (bus_labels K) /\
  NoDup (labels (ill_phrases K)) /\
  NoDup (labels (fpe_phrases K)).

(** ** The walk of an unwinder *)

(** The cursor [k] calls of [unw_step] after [c]. *)
Fixpoint cursor_after {cursor : Type} (U : Unwinder cursor) (k : nat)
    (c : cursor) : cursor :=
  match k with
  | O => c
  | S k' => cursor_after U k' (snd (unw_step U c))
  end.

(** An unwinder whose every step reports an error ([UNW_EUNSPEC]) and
    leaves the cursor on address [a]. *)
Definition erroring (a : Z) : Unwinder unit :=
  {| unw_init_local2 := fun _ => (0, tt);
     unw_get_reg := fun _ => a;
     unw_step := fun _ => (-1, tt) |}.

(** The resolved line has no name to demangle: no parenthesis, or no plus
    sign after the first parenthesis. *)
Definition has_no_name (symbol : string) : Prop :=
  no_char "(" symbol \/
  (exists pre rest : string,
      symbol = pre ++ String "(" rest /\
      no_char "(" pre /\ no_char "+" rest).

(** * Properties *)

(** ** Texts *)

Lemma string_app_assoc (a b c : string) : (a ++ b) ++ c = a ++ b ++ c.
Proof.
  induction a as [|x a IH]; simpl; [reflexivity | now rewrite IH].
Qed.

Lemma string_app_nil_r (a : string) : a ++ "" = a.
Proof.
  induction a as [|x a IH]; simpl; [reflexivity | now rewrite IH].
Qed.

Lemma prefix_refl (p : string) : prefix p p = true.
Proof.
  induction p as [|x p IH]; simpl; [reflexivity|].
  destruct (ascii_dec x x); [assumption | congruence].
Qed.

Lemma prefix_app (p s : string) : prefix p (p ++ s) = true.
Proof.
  induction p as [|x p IH]; simpl.
  - now destruct s.
  - destruct (ascii_dec x x); [assumption | congruence].
Qed.

Lemma contains_prefix (pat s : string) :
  prefix pat s = true -> contains pat s = true.
Proof.
  intros H. destruct s; cbn [contains]; rewrite H; reflexivity.
Qed.

Lemma contains_app (pat a b : string) : contains pat (a ++ pat ++ b) = true.
Proof.
  induction a as [|x a IH].
  - change ("" ++ pat ++ b) with (pat ++ b).
    apply contains_prefix, prefix_app.
  - cbn [append contains]. rewrite IH. apply orb_true_r.
Qed.

(** ** The classification switches *)

Ltac split_nodup :=
  repeat match goal with
         | H : NoDup (_ :: _) |- _ => inversion_clear H
         | H : NoDup [] |- _ => clear H
         end.

(** Walks down a chain of [if code =? label]: the branch that is taken
    either gives the phrase or contradicts the distinctness of the
    labels. *)
Ltac walk_switch :=
  repeat match goal with
         | |- context [Z.eqb ?a ?b] =>
             destruct (Z.eqb_spec a b); cbv iota;
             [ try reflexivity; exfalso; try subst;
               match goal with
               | H : ~ _ |- _ => solve [apply H; simpl; auto 12]
               end
             | ]
         end;
  try reflexivity; try congruence.

Ltac pick_entry H :=
  simpl in H;
  repeat (destruct H as [H | H];
          [ inversion H; subst; clear H | ]);
  try contradiction.

Lemma segv_reason_phrase (K : Signals) (code : Z) (addr : Z) (s : string) :
  NoDup (labels (segv_phrases K)) ->
  In (code, s) (segv_phrases K) ->
  segv_reason K {| si_addr := addr; si_code := code |} = " " ++ s.
Proof.
  unfold segv_reason, segv_phrases, labels. simpl. intros Hnd Hin.
  split_nodup. pick_entry Hin; walk_switch.
Qed.

Lemma segv_reason_unknown (K : Signals) (code : Z) (addr : Z) :
  ~ In code (labels (segv_phrases K)) ->
  segv_reason K {| si_addr := addr; si_code := code |} = " Unknown si_code.".
Proof.
  unfold segv_reason, segv_phrases, labels. simpl. intros Hout. walk_switch.
Qed.

Lemma ill_message_phrase (K : Signals) (code : Z) (addr : Z) (s : string) :
  NoDup (labels (ill_phrases K)) ->
  In (code, s) (ill_phrases K) ->
  ill_message K {| si_addr := addr; si_code := code |} = s.
Proof.
  unfold ill_message, ill_phrases, labels. simpl. intros Hnd Hin.
  split_nodup. pick_entry Hin; walk_switch.
Qed.

Lemma ill_message_unknown (K : Signals) (code : Z) (addr : Z) :
  ~ In code (labels (ill_phrases K)) ->
  ill_message K {| si_addr := addr; si_code := code |} = "Unknown si_code.".
Proof.
  unfold ill_message, ill_phrases, labels. simpl. intros Hout. walk_switch.
Qed.

Lemma fpe_message_phrase (K : Signals) (code : Z) (addr : Z) (s : string) :
  NoDup (labels (fpe_phrases K)) ->
  In (code, s) (fpe_phrases K) ->
  fpe_message K {| si_addr := addr; si_code := code |} = s.
Proof.
  unfold fpe_message, fpe_phrases, labels. simpl. intros Hnd Hin.
  split_nodup. pick_entry Hin; walk_switch.
Qed.

Lemma fpe_message_unknown (K : Signals) (code : Z) (addr : Z) :
  ~ In code (labels (fpe_phrases K)) ->
  fpe_message K {| si_addr := addr; si_code := code |} = "Unknown si_code.".
Proof.
  unfold fpe_message, fpe_phrases, labels. simpl. intros Hout. walk_switch.
Qed.

Lemma bus_message_phrase (K : Signals) (code : Z) (addr : Z) (s : string) :
  NoDup (bus_labels K) ->
  In (code, s) (bus_phrases K) ->
  bus_message K {| si_addr := addr; si_code := code |} = s.
Proof.
  unfold bus_message, bus_labels, bus_phrases, labels, optional_label, is_case.
  destruct (BUS_MCEERR_AR K), (BUS_MCEERR_AO K); simpl; intros Hnd Hin;
    split_nodup; pick_entry Hin; walk_switch.
Qed.

Lemma bus_message_unknown (K : Signals) (code : Z) (addr : Z) :
  ~ In code (bus_labels K) ->
  bus_message K {| si_addr := addr; si_code := code |} = "Unknown si_code.".
Proof.
  unfold bus_message, bus_labels, bus_phrases, labels, optional_label, is_case.
  destruct (BUS_MCEERR_AR K), (BUS_MCEERR_AO K); simpl; intros Hout;
    walk_switch.
Qed.

(** The code's own literal for [BUS_ADRERR]. *)
Lemma bus_message_adrerr (K : Signals) (addr : Z) :
  NoDup (bus_labels K) ->
  bus_message K {| si_addr := addr; si_code := BUS_ADRERR K |}
  = "Non-existant physical address.".
Proof.
  unfold bus_message, bus_labels, bus_phrases, labels. simpl. intros Hnd.
  split_nodup. walk_switch.
Qed.

(** ** The dispatch on the signal *)

Section Dispatch.

Variable T : Target.
Variable K : Signals.
Variable show_ptr : Z -> string.
Variable info : siginfo_t.
Variable context : ucontext_t.

Lemma signalToErrorMessage_SIGSEGV :
  signalToErrorMessage T K show_ptr (SIGSEGV K) info context
  = segv_address show_ptr info ++ segv_access T context ++ segv_reason K info.
Proof.
  unfold signalToErrorMessage, segv_message. rewrite Z.eqb_refl. simpl.
  apply string_app_assoc.
Qed.

Hypothesis signals_differ : NoDup (specialized_signals K).

Lemma signalToErrorMessage_SIGBUS :
  signalToErrorMessage T K show_ptr (SIGBUS K) info context
  = bus_message K info.
Proof.
  unfold signalToErrorMessage, specialized_signals in *.
  split_nodup. walk_switch.
Qed.

Lemma signalToErrorMessage_SIGILL :
  signalToErrorMessage T K show_ptr (SIGILL K) info context
  = ill_message K info.
Proof.
  unfold signalToErrorMessage, specialized_signals in *.
  split_nodup. walk_switch.
Qed.

Lemma signalToErrorMessage_SIGFPE :
  signalToErrorMessage T K show_ptr (SIGFPE K) info context
  = fpe_message K info.
Proof.
  unfold signalToErrorMessage, specialized_signals in *.
  split_nodup. walk_switch.
Qed.

End Dispatch.

Lemma linux_distinct_labels : distinct_labels Linux.signals.
Proof.
  unfold distinct_labels. repeat split; repeat constructor; simpl;
    intuition discriminate.
Qed.

(** ** signalToErrorMessage: the claims *)

(** C8. For every signal number other than SIGSEGV, SIGBUS, SIGILL and
    SIGFPE, and for every [siginfo_t] and [ucontext_t],
    [signalToErrorMessage] returns the empty string. *)
Theorem signalToErrorMessage_other_signal :
  forall (T : Target) (K : Signals) (show_ptr : Z -> string)
         (sig : Z) (info : siginfo_t) (context : ucontext_t),
    ~ In sig (specialized_signals K) ->
    signalToErrorMessage T K show_ptr sig info context = "".
Proof.
  intros T K show_ptr sig info context Hout.
  unfold signalToErrorMessage, specialized_signals in *. walk_switch.
Qed.

Lemma signalToErrorMessage_other_signal_witness :
  ~ In 2 (specialized_signals Linux.signals) /\
  signalToErrorMessage (Linux.target true) Linux.signals Linux.show_ptr
    2 {| si_addr := 16; si_code := 1 |} (Linux.context 4197052 6) = "".
Proof.
  assert (Hout : ~ In 2 (specialized_signals Linux.signals)).
  { simpl. intuition discriminate. }
  split; [exact Hout|].
  apply (signalToErrorMessage_other_signal
           (Linux.target true) Linux.signals Linux.show_ptr
           2 {| si_addr := 16; si_code := 1 |} (Linux.context 4197052 6) Hout).
Defined.

(** C1, as the claim states it, fails: for SIGSEGV a fine-grained code
    outside the table does not give exactly "Unknown si_code."; the text
    starts with the address and, on x86-64 Linux, the kind of access. *)
Lemma segv_unknown_code_not_bare_phrase :
  let message :=
    signalToErrorMessage (Linux.target true) Linux.signals Linux.show_ptr
      (SIGSEGV Linux.signals) {| si_addr := 0; si_code := 77 |}
      (Linux.context 4197052 4) in
  ~ In 77 (labels (segv_phrases Linux.signals)) /\
  message = "Address: NULL pointer. Access: read. Unknown si_code." /\
  message <> "Unknown si_code.".
Proof.
  split; [simpl; intuition discriminate|].
  split; [reflexivity | discriminate].
Qed.

(** The literal the code writes for [BUS_ADRERR] on Linux: its spelling is
    not that of "non-existent". *)
Lemma bus_adrerr_literal :
  let message :=
    signalToErrorMessage (Linux.target true) Linux.signals Linux.show_ptr
      (SIGBUS Linux.signals)
      {| si_addr := 16; si_code := BUS_ADRERR Linux.signals |}
      (Linux.context 4197052 4) in
  message = "Non-existant physical address." /\
  contains "existent" message = false.
Proof.
  split; reflexivity.
Qed.

(** C1 (amended). When the [case] labels are distinct: for SIGBUS, SIGILL
    and SIGFPE the result is exactly the phrase the table gives for the
    fine-grained code, and exactly "Unknown si_code." for a code outside
    the table of the signal; for SIGSEGV the result is the address text,
    the access text, then a space and the phrase of the table, or
    " Unknown si_code.".  (The entry of [BUS_ADRERR] is not part of the
    statement.) *)
Theorem signalToErrorMessage_phrases :
  forall (T : Target) (K : Signals) (show_ptr : Z -> string)
         (info : siginfo_t) (context : ucontext_t),
    distinct_labels K ->
    let message sig := signalToErrorMessage T K show_ptr sig info context in
    let preamble := segv_address show_ptr info ++ segv_access T context in
    (forall s, In (si_code info, s) (segv_phrases K) ->
               message (SIGSEGV K) = preamble ++ " " ++ s) /\
    (~ In (si_code info) (labels (segv_phrases K)) ->
               message (SIGSEGV K) = preamble ++ " Unknown si_code.") /\
    (forall s, In (si_code info, s) (bus_phrases K) ->
               message (SIGBUS K) = s) /\
    (~ In (si_code info) (bus_labels K) ->
               message (SIGBUS K) = "Unknown si_code.") /\
    (forall s, In (si_code info, s) (ill_phrases K) ->
               message (SIGILL K) = s) /\
    (~ In (si_code info) (labels (ill_phrases K)) ->
               message (SIGILL K) = "Unknown si_code.") /\
    (forall s, In (si_code info, s) (fpe_phrases K) ->
               message (SIGFPE K) = s) /\
    (~ In (si_code info) (labels (fpe_phrases K)) ->
               message (SIGFPE K) = "Unknown si_code.").
Proof.
  intros T K show_ptr [addr code] context
         (Hsig & Hsegv & Hbus & Hill & Hfpe) message preamble.
  subst message preamble. cbn [si_code].
  repeat split; intros.
  - rewrite signalToErrorMessage_SIGSEGV, string_app_assoc.
    now rewrite (segv_reason_phrase K code addr s).
  - rewrite signalToErrorMessage_SIGSEGV, string_app_assoc.
    now rewrite segv_reason_unknown.
  - rewrite signalToErrorMessage_SIGBUS by assumption.
    now apply bus_message_phrase.
  - rewrite signalToErrorMessage_SIGBUS by assumption.
    now apply bus_message_unknown.
  - rewrite signalToErrorMessage_SIGILL by assumption.
    now apply ill_message_phrase.
  - rewrite signalToErrorMessage_SIGILL by assumption.
    now apply ill_message_unknown.
  - rewrite signalToErrorMessage_SIGFPE by assumption.
    now apply fpe_message_phrase.
  - rewrite signalToErrorMessage_SIGFPE by assumption.
    now apply fpe_message_unknown.
Qed.

Lemma signalToErrorMessage_phrases_witness :
  distinct_labels Linux.signals /\
  In (3, "Floating point divide by zero.") (fpe_phrases Linux.signals) /\
  signalToErrorMessage (Linux.target true) Linux.signals Linux.show_ptr
    (SIGFPE Linux.signals) {| si_addr := 4197052; si_code := 3 |}
    (Linux.context 4197052 0)
  = "Floating point divide by zero.".
Proof.
  assert (Hin : In (3, "Floating point divide by zero.")
                   (fpe_phrases Linux.signals)).
  { simpl. auto. }
  split; [exact linux_distinct_labels|]. split; [exact Hin|].
  apply (signalToErrorMessage_phrases
           (Linux.target true) Linux.signals Linux.show_ptr
           {| si_addr := 4197052; si_code := 3 |} (Linux.context 4197052 0)
           linux_distinct_labels).
  exact Hin.
Defined.

(** C4, as the claim states it, fails: [si_addr] is a [void *], and a
    fault address of numeric value zero is the null pointer.  It is
    written as "NULL pointer", not as the text of the address. *)
Lemma segv_address_zero_is_null :
  let message :=
    signalToErrorMessage (Linux.target true) Linux.signals Linux.show_ptr
      (SIGSEGV Linux.signals)
      {| si_addr := 0; si_code := SEGV_MAPERR Linux.signals |}
      (Linux.context 4197052 4) in
  message = "Address: NULL pointer. Access: read. Address not mapped to object."
  /\ contains (Linux.show_ptr 0) message = false
  /\ contains "0x0" message = false.
Proof.
  repeat split; reflexivity.
Qed.

(** C4 (amended). For SIGSEGV with a null [si_addr] (an absent address
    and an address of numeric value zero are the same null pointer) the
    text is "Address: NULL pointer." followed by the access and reason
    texts: it contains "NULL pointer" and no address is printed, whatever
    the pointer format.  Every non-null address is printed in the pointer
    format after "Address: ". *)
Theorem segv_null_address :
  forall (T : Target) (K : Signals) (show_ptr : Z -> string)
         (code : Z) (context : ucontext_t) (addr : Z),
    let info a := {| si_addr := a; si_code := code |} in
    let message a :=
      signalToErrorMessage T K show_ptr (SIGSEGV K) (info a) context in
    (message nullptr
       = "Address: NULL pointer."
           ++ segv_access T context ++ segv_reason K (info nullptr)
     /\ contains "NULL pointer" (message nullptr) = true
     /\ forall show_ptr' : Z -> string,
          signalToErrorMessage T K show_ptr' (SIGSEGV K) (info nullptr) context
          = message nullptr)
    /\ (addr <> nullptr ->
        message addr
          = "Address: " ++ show_ptr addr
              ++ segv_access T context ++ segv_reason K (info addr)
        /\ contains (show_ptr addr) (message addr) = true).
Proof.
  intros T K show_ptr code context addr info message. subst info message.
  cbv beta. split; [split; [|split]|].
  - now rewrite signalToErrorMessage_SIGSEGV.
  - rewrite signalToErrorMessage_SIGSEGV.
    change (segv_address show_ptr {| si_addr := nullptr; si_code := code |})
      with ("Address: " ++ "NULL pointer" ++ ".").
    rewrite !string_app_assoc. apply contains_app.
  - intros show_ptr'. rewrite !signalToErrorMessage_SIGSEGV. reflexivity.
  - intros Hnz.
    assert (Haddr : segv_address show_ptr {| si_addr := addr; si_code := code |}
                    = "Address: " ++ show_ptr addr).
    { unfold segv_address. cbn [si_addr].
      destruct (Z.eqb_spec nullptr addr); [congruence | reflexivity]. }
    rewrite signalToErrorMessage_SIGSEGV, Haddr, !string_app_assoc.
    split; [reflexivity | apply contains_app].
Qed.

Lemma segv_null_address_witness :
  16 <> nullptr /\
  signalToErrorMessage (Linux.target true) Linux.signals Linux.show_ptr
    (SIGSEGV Linux.signals) {| si_addr := 16; si_code := 1 |}
    (Linux.context 4197052 6)
  = "Address: 0x10 Access: write. Address not mapped to object.".
Proof.
  assert (Hnz : 16 <> nullptr) by (unfold nullptr; lia).
  split; [exact Hnz|].
  exact (proj1 (proj2 (segv_null_address
                         (Linux.target true) Linux.signals Linux.show_ptr
                         1 (Linux.context 4197052 6) 16) Hnz)).
Defined.

(** ** getBacktraceFrames *)

Section WalkerFacts.

Context {cursor : Type}.
Variable U : Unwinder cursor.

(** Each iteration appends one frame, and there are at most [remaining]
    iterations. *)
Lemma unwind_loop_length (remaining : nat) :
  forall (c : cursor) (out_frames : list Z),
    (List.length (unwind_loop U remaining c out_frames)
     <= List.length out_frames + remaining)%nat.
Proof.
  induction remaining as [|n IH]; intros c out_frames; simpl.
  - lia.
  - destruct (unw_step U c) as [r c'].
    destruct (r =? 0).
    + rewrite length_app. simpl. lia.
    + specialize (IH c' (out_frames ++ [reinterpret_cast (unw_get_reg U c)])%list).
      rewrite length_app in IH. simpl in IH. lia.
Qed.

(** When the step never reports the end of the stack, the loop stops at
    the bound and at nothing else. *)
Lemma unwind_loop_never_ending (remaining : nat) :
  (forall c : cursor, fst (unw_step U c) <> 0) ->
  forall (c : cursor) (out_frames : list Z),
    List.length (unwind_loop U remaining c out_frames)
    = (List.length out_frames + remaining)%nat.
Proof.
  intros Hstep. induction remaining as [|n IH]; intros c out_frames; simpl.
  - lia.
  - specialize (Hstep c). destruct (unw_step U c) as [r c']. simpl in Hstep.
    destruct (Z.eqb_spec r 0); [contradiction|].
    rewrite IH, length_app. simpl. lia.
Qed.

Lemma backtraceLibUnwind_length (n : nat) (context : ucontext_t) :
  (List.length (backtraceLibUnwind U n context) <= n)%nat.
Proof.
  unfold backtraceLibUnwind.
  destruct (unw_init_local2 U context) as [r c].
  destruct (0 <=? r).
  - apply (unwind_loop_length n c []).
  - simpl. lia.
Qed.

Lemma backtraceLibUnwind_init_failed (n : nat) (context : ucontext_t) :
  fst (unw_init_local2 U context) < 0 ->
  backtraceLibUnwind U n context = [].
Proof.
  unfold backtraceLibUnwind.
  destruct (unw_init_local2 U context) as [r c]. simpl. intros Hneg.
  destruct (Z.leb_spec 0 r); [lia | reflexivity].
Qed.

Lemma getBacktraceFrames_fallback (T : Target) (context : ucontext_t) :
  USE_UNWIND T = false ->
  getBacktraceFrames U T context
  = if getCallerAddress T context =? nullptr then []
    else [getCallerAddress T context].
Proof.
  unfold getBacktraceFrames. intros ->.
  now destruct (getCallerAddress T context =? nullptr).
Qed.

End WalkerFacts.

Lemma unwind_loop_self_referential (a : Z) (n : nat) :
  forall out_frames : list Z,
    unwind_loop (self_referential a) n tt out_frames
    = (out_frames ++ repeat (reinterpret_cast a) n)%list.
Proof.
  induction n as [|n IH]; intros out_frames; simpl.
  - now rewrite app_nil_r.
  - rewrite IH, <- app_assoc. reflexivity.
Qed.

Lemma getCallerAddress_unsupported (T : Target) (context : ucontext_t) :
  x86_64 T = false -> aarch64 T = false ->
  getCallerAddress T context = nullptr.
Proof.
  unfold getCallerAddress. now intros -> ->.
Qed.

(** C2. For every machine context, every unwinder and every build,
    [getBacktraceFrames] returns at most 50 frames.  The walk is a
    function on the number of iterations left, so it ends on every input;
    with an unwinder whose step never fails and stays on one address the
    result is that address, 50 times. *)
Theorem getBacktraceFrames_bounded :
  forall (cursor : Type) (U : Unwinder cursor) (T : Target)
         (context : ucontext_t) (a : Z),
    (List.length (getBacktraceFrames U T context) <= 50)%nat /\
    getBacktraceFrames (self_referential a) (Linux.target true) context
    = repeat (reinterpret_cast a) 50.
Proof.
  intros cursor U T context a. split.
  - unfold getBacktraceFrames. destruct (USE_UNWIND T).
    + apply (backtraceLibUnwind_length U max_frames context).
    + destruct (negb (getCallerAddress T context =? nullptr)); simpl; lia.
  - unfold getBacktraceFrames, backtraceLibUnwind. cbn [USE_UNWIND Linux.target].
    cbn [unw_init_local2 self_referential].
    change (0 <=? 0) with true. cbv iota.
    apply (unwind_loop_self_referential a max_frames []).
Qed.

(** C7. When the build has no unwinder, or [unw_init_local2] fails on the
    machine context, [getBacktraceFrames] returns the empty list or, in
    the build without unwinder, the single frame of [getCallerAddress];
    the function has no error result. *)
Theorem getBacktraceFrames_degraded :
  forall (cursor : Type) (U : Unwinder cursor) (T : Target)
         (context : ucontext_t),
    USE_UNWIND T = false \/ fst (unw_init_local2 U context) < 0 ->
    getBacktraceFrames U T context = [] \/
    (USE_UNWIND T = false /\
     getBacktraceFrames U T context = [getCallerAddress T context]).
Proof.
  intros cursor U T context Hdegraded.
  destruct (USE_UNWIND T) eqn:Huse.
  - destruct Hdegraded as [Hno | Hinit]; [discriminate|].
    left. unfold getBacktraceFrames. rewrite Huse.
    now apply backtraceLibUnwind_init_failed.
  - rewrite (getBacktraceFrames_fallback U T context Huse).
    destruct (getCallerAddress T context =? nullptr); auto.
Qed.

Lemma getBacktraceFrames_degraded_witness :
  (USE_UNWIND (Linux.target true) = false \/
   fst (unw_init_local2 uninitialisable (Linux.context 4197052 0)) < 0) /\
  (getBacktraceFrames uninitialisable (Linux.target true)
     (Linux.context 4197052 0) = [] \/
   (USE_UNWIND (Linux.target true) = false /\
    getBacktraceFrames uninitialisable (Linux.target true)
      (Linux.context 4197052 0)
    = [getCallerAddress (Linux.target true) (Linux.context 4197052 0)])).
Proof.
  assert (Hdegraded :
            USE_UNWIND (Linux.target true) = false \/
            fst (unw_init_local2 uninitialisable (Linux.context 4197052 0)) < 0).
  { right. simpl. lia. }
  split; [exact Hdegraded|].
  exact (getBacktraceFrames_degraded unit uninitialisable (Linux.target true)
           (Linux.context 4197052 0) Hdegraded).
Defined.

(** C9. In the build without unwinder, [getBacktraceFrames] returns the
    empty list when the extracted instruction pointer is zero, and so it
    does on a target without supported architecture, where
    [getCallerAddress] returns [nullptr]: the two cases give the same
    result. *)
Theorem getBacktraceFrames_zero_ip :
  forall (cursor : Type) (U : Unwinder cursor) (T T' : Target)
         (context context' : ucontext_t),
    USE_UNWIND T = false ->
    getCallerAddress T context = 0 ->
    USE_UNWIND T' = false -> x86_64 T' = false -> aarch64 T' = false ->
    getBacktraceFrames U T context = [] /\
    getBacktraceFrames U T' context' = [] /\
    getCallerAddress T' context' = nullptr.
Proof.
  intros cursor U T T' context context' Huse Hzero Huse' Hx86 Harm.
  pose proof (getCallerAddress_unsupported T' context' Hx86 Harm) as Hnull.
  rewrite (getBacktraceFrames_fallback U T context Huse), Hzero.
  rewrite (getBacktraceFrames_fallback U T' context' Huse'), Hnull.
  repeat split.
Qed.

Lemma getBacktraceFrames_zero_ip_witness :
  getCallerAddress (Linux.target false) (Linux.context 0 4) = 0 /\
  getBacktraceFrames (stack_unwinder [4197052; 4197100])
    (Linux.target false) (Linux.context 0 4) = [] /\
  getBacktraceFrames (stack_unwinder [4197052; 4197100])
    unsupported_target (Linux.context 4197052 4) = [].
Proof.
  assert (Hzero : getCallerAddress (Linux.target false) (Linux.context 0 4) = 0)
    by reflexivity.
  split; [exact Hzero|].
  pose proof (getBacktraceFrames_zero_ip (list Z)
                (stack_unwinder [4197052; 4197100])
                (Linux.target false) unsupported_target
                (Linux.context 0 4) (Linux.context 4197052 4)
                eq_refl Hzero eq_refl eq_refl eq_refl) as H.
  split; [exact (proj1 H) | exact (proj1 (proj2 H))].
Defined.

(** ** Scanning a symbol line *)

Lemma strchr_absent (c : ascii) (s : string) :
  no_char c s -> strchr s c = None.
Proof.
  unfold no_char. induction s as [|a s IH]; simpl; intros Hno.
  - reflexivity.
  - destruct (Ascii.eqb_spec a c) as [Heq | Hne].
    + exfalso. apply Hno. now left.
    + rewrite IH; [reflexivity|]. intros Hin. apply Hno. now right.
Qed.

Lemma strchr_first (c : ascii) (pre rest : string) :
  no_char c pre ->
  strchr (pre ++ String c rest) c = Some (String.length pre).
Proof.
  unfold no_char. induction pre as [|a pre IH]; simpl; intros Hno.
  - now rewrite Ascii.eqb_refl.
  - destruct (Ascii.eqb_spec a c) as [Heq | Hne].
    + exfalso. apply Hno. now left.
    + rewrite IH; [reflexivity|]. intros Hin. apply Hno. now right.
Qed.

Lemma advance_app (pre s : string) (k : nat) :
  advance (String.length pre + k) (pre ++ s) = advance k s.
Proof.
  induction pre as [|a pre IH]; simpl; [reflexivity | exact IH].
Qed.

Lemma advance_whole (pre s : string) :
  advance (String.length pre) (pre ++ s) = s.
Proof.
  rewrite <- (Nat.add_0_r (String.length pre)). apply advance_app.
Qed.

Lemma substring_head (a b : string) :
  substring 0 (String.length a) (a ++ b) = a.
Proof.
  induction a as [|x a IH]; simpl.
  - now destruct b.
  - now rewrite IH.
Qed.

Lemma substring_after (pre s : string) (c : ascii) (n : nat) :
  substring (S (String.length pre)) n (pre ++ String c s) = substring 0 n s.
Proof.
  induction pre as [|a pre IH]; simpl; [reflexivity | exact IH].
Qed.

Lemma substring_through (pre s : string) (c : ascii) :
  substring 0 (S (String.length pre)) (pre ++ String c s)
  = pre ++ String c "".
Proof.
  induction pre as [|a pre IH]; simpl.
  - now destruct s.
  - f_equal. exact IH.
Qed.

Section SymbolizerFacts.

Variable show_ptr : Z -> string.
Variable backtrace_symbols : list Z -> option (list string).
Variable cxa_demangle : string -> option string * Z.

Lemma find_name_has_name (symbol pre name rest : string) :
  has_name symbol pre name rest ->
  find_name cxa_demangle symbol
  = Some (S (String.length pre),
          (String.length pre + S (String.length name))%nat,
          fst (cxa_demangle name), snd (cxa_demangle name)).
Proof.
  intros (-> & Hpre & Hname). unfold find_name.
  rewrite (strchr_first "(" pre _ Hpre), advance_whole.
  cbn [strchr]. change (Ascii.eqb "(" "+") with false. cbv iota.
  rewrite (strchr_first "+" name rest Hname). cbn [option_map].
  replace (String.length pre + S (String.length name) - S (String.length pre))%nat
    with (String.length name) by lia.
  rewrite substring_after, substring_head.
  now destruct (cxa_demangle name).
Qed.

Lemma find_name_absent (symbol : string) :
  no_char "(" symbol \/
  (exists pre rest : string,
      symbol = pre ++ String "(" rest /\
      no_char "(" pre /\ no_char "+" rest) ->
  find_name cxa_demangle symbol = None.
Proof.
  intros [Hno | (pre & rest & -> & Hpre & Hrest)]; unfold find_name.
  - now rewrite (strchr_absent "(" symbol Hno).
  - rewrite (strchr_first "(" pre rest Hpre), advance_whole.
    cbn [strchr]. change (Ascii.eqb "(" "+") with false. cbv iota.
    now rewrite (strchr_absent "+" rest Hrest).
Qed.

(** The line of a frame whose name was demangled: the demangled name
    between the text up to the parenthesis and the text from the plus
    sign on.  The delimiter is not written. *)
Lemma render_frame_demangled
    (i : nat) (symbol delimiter pre name rest demangled : string) :
  has_name symbol pre name rest ->
  cxa_demangle name = (Some demangled, 0) ->
  render_frame cxa_demangle i symbol delimiter
  = (show_size i ++ ". ")
      ++ (pre ++ "(") ++ demangled ++ String "+" rest.
Proof.
  intros Hname Hdem. unfold render_frame.
  rewrite (find_name_has_name symbol pre name rest Hname), Hdem.
  cbn [fst snd]. change (0 =? 0) with true. cbv iota.
  destruct Hname as (-> & _ & _).
  rewrite substring_through, advance_app.
  cbn [advance]. now rewrite advance_whole.
Qed.

(** The line of a frame whose name the demangler refused. *)
Lemma render_frame_not_demangled
    (i : nat) (symbol delimiter pre name rest : string) :
  has_name symbol pre name rest ->
  fst (cxa_demangle name) = None \/ snd (cxa_demangle name) <> 0 ->
  render_frame cxa_demangle i symbol delimiter
  = (show_size i ++ ". ") ++ symbol ++ delimiter.
Proof.
  intros Hname Hfail. unfold render_frame.
  rewrite (find_name_has_name symbol pre name rest Hname).
  destruct (cxa_demangle name) as [[d|] st]; cbn [fst snd] in *.
  - destruct Hfail as [Hnull | Hstatus]; [discriminate|].
    destruct (Z.eqb_spec st 0); [contradiction | reflexivity].
  - reflexivity.
Qed.

(** The line of a frame in which no name was found. *)
Lemma render_frame_no_name (i : nat) (symbol delimiter : string) :
  find_name cxa_demangle symbol = None ->
  render_frame cxa_demangle i symbol delimiter
  = (show_size i ++ ". ") ++ symbol ++ delimiter.
Proof.
  intros Hnone. unfold render_frame. now rewrite Hnone.
Qed.

Lemma render_frame_index (i : nat) (symbol delimiter : string) :
  prefix (show_size i ++ ". ") (render_frame cxa_demangle i symbol delimiter)
  = true.
Proof.
  unfold render_frame.
  destruct (find_name cxa_demangle symbol) as [[[[ns ne] [d|]] st]|];
    try destruct (st =? 0); apply prefix_app.
Qed.

End SymbolizerFacts.

(** ** The rendering loop *)

Section RenderFacts.

Variable show_ptr : Z -> string.
Variable backtrace_symbols : list Z -> option (list string).
Variable cxa_demangle : string -> option string * Z.

Lemma lines_from_length (symbols : list string) (delimiter : string) :
  forall i : nat,
    List.length (lines_from cxa_demangle i symbols delimiter)
    = List.length symbols.
Proof.
  induction symbols as [|s symbols IH]; intros i; simpl;
    [reflexivity | now rewrite IH].
Qed.

Lemma lines_from_nth (symbols : list string) (delimiter : string) :
  forall (k i : nat) (symbol : string),
    nth_error symbols i = Some symbol ->
    nth_error (lines_from cxa_demangle k symbols delimiter) i
    = Some (render_frame cxa_demangle (k + i) symbol delimiter).
Proof.
  induction symbols as [|s symbols IH]; intros k i symbol Hnth.
  - destruct i; discriminate.
  - destruct i as [|i]; simpl in *.
    + injection Hnth as ->. now rewrite Nat.add_0_r.
    + rewrite (IH (S k) i symbol Hnth). do 2 f_equal. lia.
Qed.

(** The loop, started at index [|done|] with [rest] still to render,
    appends the lines of [rest] to the stream. *)
Lemma render_loop_lines (delimiter : string) :
  forall (rest done : list string) (backtrace : string),
    render_loop cxa_demangle (done ++ rest)%list delimiter
      (List.length rest) (List.length done) backtrace
    = Some (backtrace
              ++ join_lines (lines_from cxa_demangle (List.length done)
                               rest delimiter)).
Proof.
  induction rest as [|s rest IH]; intros done backtrace; simpl.
  - now rewrite string_app_nil_r.
  - rewrite nth_error_app2 by lia. rewrite Nat.sub_diag. simpl.
    replace (done ++ s :: rest)%list with ((done ++ [s]) ++ rest)%list
      by now rewrite <- app_assoc.
    replace (S (List.length done)) with (List.length (done ++ [s])%list)
      by (rewrite length_app; simpl; lia).
    rewrite IH. now rewrite string_app_assoc.
Qed.

(** With the array [backtrace_symbols] promises (one string per frame),
    the result is the lines of the frames, one after the other. *)
Lemma backtraceFramesToString_lines
    (frames : list Z) (symbols : list string) (delimiter : string) :
  backtrace_symbols frames = Some symbols ->
  List.length symbols = List.length frames ->
  backtraceFramesToString show_ptr backtrace_symbols cxa_demangle
    frames delimiter
  = Some (join_lines (rendered_lines cxa_demangle symbols delimiter)).
Proof.
  intros Hsym Hlen. unfold backtraceFramesToString, rendered_lines.
  rewrite Hsym, <- Hlen.
  exact (render_loop_lines delimiter symbols [] "").
Qed.

Lemma backtraceFramesToString_empty (delimiter : string) :
  backtraceFramesToString show_ptr backtrace_symbols cxa_demangle [] delimiter
  = Some "".
Proof.
  unfold backtraceFramesToString.
  now destruct (backtrace_symbols []).
Qed.

End RenderFacts.

(** ** backtraceFramesToString: the claims *)

(** C3. The code at a frame whose name is demangled: the line is
    "0. ./prog(foo()+0x10) [0x400abc]" for every delimiter, so the
    delimiter is not written after it, while the line of the next frame,
    whose name is not demangled, does end with the delimiter. *)
Theorem render_demangled_line_lacks_delimiter :
  (forall delimiter : string,
      backtraceFramesToString Linux.show_ptr sample_symbols sample_demangle
        [4197052] delimiter
      = Some "0. ./prog(foo()+0x10) [0x400abc]") /\
  ends_with "|" "0. ./prog(foo()+0x10) [0x400abc]" = false /\
  backtraceFramesToString Linux.show_ptr sample_symbols sample_demangle
    [4197052; 4197100] "|"
  = Some "0. ./prog(foo()+0x10) [0x400abc]1. ./prog(main+0x2c) [0x400aec]|".
Proof.
  split; [intros delimiter | split]; reflexivity.
Qed.

(** C5, as the claim states it, fails: when [backtrace_symbols] returns
    null, two frames give one notice and no indexed line. *)
Lemma render_without_symbols_no_indexed_line :
  let output :=
    backtraceFramesToString Linux.show_ptr no_symbols sample_demangle
      [4197052; 4197100] "|" in
  output = Some "No symbols could be found for backtrace starting at 0x400abc"
  /\ contains "0. "
       "No symbols could be found for backtrace starting at 0x400abc" = false
  /\ contains "1. "
       "No symbols could be found for backtrace starting at 0x400abc" = false.
Proof.
  repeat split; reflexivity.
Qed.

(** When [backtrace_symbols] returns null for a frame list that is not
    empty, the loop is not run: the result is the notice about the first
    frame and nothing else. *)
Lemma backtraceFramesToString_null
    (show_ptr : Z -> string)
    (backtrace_symbols : list Z -> option (list string))
    (cxa_demangle : string -> option string * Z)
    (frames : list Z) (delimiter : string) :
  backtrace_symbols frames = None ->
  frames <> [] ->
  backtraceFramesToString show_ptr backtrace_symbols cxa_demangle
    frames delimiter
  = Some ("No symbols could be found for backtrace starting at "
            ++ show_ptr (nth 0 frames nullptr)).
Proof.
  intros Hnull Hframes. unfold backtraceFramesToString. rewrite Hnull.
  destruct frames as [|frame frames]; [contradiction | reflexivity].
Qed.

(** C5 (amended). For the empty frame list the result is the empty
    string, whatever [backtrace_symbols] returns.  When
    [backtrace_symbols] returns its array (one string per frame), the
    result is made of exactly as many lines as there are frames, one
    after the other, the line of frame [i] starting with the decimal
    index [i] and ". ".  When [backtrace_symbols] returns null and the
    frame list is not empty, the result is exactly the notice "No symbols
    could be found for backtrace starting at " followed by the first
    frame: no line of the loop is written. *)
Theorem backtraceFramesToString_line_count :
  forall (show_ptr : Z -> string)
         (backtrace_symbols : list Z -> option (list string))
         (cxa_demangle : string -> option string * Z)
         (delimiter : string),
    backtraceFramesToString show_ptr backtrace_symbols cxa_demangle
      [] delimiter = Some "" /\
    (forall (frames : list Z) (symbols : list string),
      backtrace_symbols frames = Some symbols ->
      List.length symbols = List.length frames ->
      let lines := rendered_lines cxa_demangle symbols delimiter in
      backtraceFramesToString show_ptr backtrace_symbols cxa_demangle
        frames delimiter = Some (join_lines lines) /\
      List.length lines = List.length frames /\
      forall (i : nat) (line : string),
        nth_error lines i = Some line ->
        prefix (show_size i ++ ". ") line = true) /\
    (forall frames : list Z,
      backtrace_symbols frames = None ->
      frames <> [] ->
      backtraceFramesToString show_ptr backtrace_symbols cxa_demangle
        frames delimiter
      = Some ("No symbols could be found for backtrace starting at "
                ++ show_ptr (nth 0 frames nullptr))).
Proof.
  intros show_ptr backtrace_symbols cxa_demangle delimiter.
  split; [apply backtraceFramesToString_empty|]. split.
  - intros frames symbols Hsym Hlen lines. subst lines.
    split; [now apply backtraceFramesToString_lines|].
    unfold rendered_lines. split; [now rewrite lines_from_length|].
    intros i line Hline.
    destruct (nth_error symbols i) as [symbol|] eqn:Hnth.
    + rewrite (lines_from_nth cxa_demangle symbols delimiter 0 i symbol Hnth)
        in Hline.
      injection Hline as <-. apply render_frame_index.
    + apply nth_error_None in Hnth.
      assert (Hsome : nth_error (lines_from cxa_demangle 0 symbols delimiter) i
                      <> None) by congruence.
      apply nth_error_Some in Hsome. rewrite lines_from_length in Hsome. lia.
  - intros frames Hnull Hframes. now apply backtraceFramesToString_null.
Qed.

Lemma backtraceFramesToString_line_count_witness :
  (sample_symbols [4197052; 4197100; 16]
   = Some [ "./prog(_Z3foov+0x10) [0x400abc]";
            "./prog(main+0x2c) [0x400aec]"; "[0x10]" ] /\
   backtraceFramesToString Linux.show_ptr sample_symbols sample_demangle
     [4197052; 4197100; 16] "|"
   = Some (join_lines [ "0. ./prog(foo()+0x10) [0x400abc]";
                        "1. ./prog(main+0x2c) [0x400aec]|";
                        "2. [0x10]|" ])) /\
  (no_symbols [4197052; 4197100; 16] = None /\
   [4197052; 4197100; 16] <> [] /\
   backtraceFramesToString Linux.show_ptr no_symbols sample_demangle
     [4197052; 4197100; 16] "|"
   = Some "No symbols could be found for backtrace starting at 0x400abc").
Proof.
  assert (Hframes : [4197052; 4197100; 16] <> []) by discriminate.
  split.
  - split; [reflexivity|].
    exact (proj1 (proj1 (proj2 (backtraceFramesToString_line_count
                                  Linux.show_ptr sample_symbols
                                  sample_demangle "|"))
                    [4197052; 4197100; 16]
                    [ "./prog(_Z3foov+0x10) [0x400abc]";
                      "./prog(main+0x2c) [0x400aec]"; "[0x10]" ]
                    eq_refl eq_refl)).
  - split; [reflexivity|]. split; [exact Hframes|].
    exact (proj2 (proj2 (backtraceFramesToString_line_count
                           Linux.show_ptr no_symbols sample_demangle "|"))
             [4197052; 4197100; 16] eq_refl Hframes).
Defined.

(** C6, as the claim states it, fails: when [backtrace_symbols] returns
    null, symbol resolution has failed and the rendering of all frames is
    given up.  Three frames give the notice about the first and nothing
    for the second and the third. *)
Lemma render_without_symbols_drops_later_frames :
  let output :=
    backtraceFramesToString Linux.show_ptr no_symbols sample_demangle
      [4197052; 4197100; 16] "|" in
  output = Some "No symbols could be found for backtrace starting at 0x400abc"
  /\ contains "1. "
       "No symbols could be found for backtrace starting at 0x400abc" = false
  /\ contains "2. "
       "No symbols could be found for backtrace starting at 0x400abc" = false
  /\ contains (Linux.show_ptr 4197100)
       "No symbols could be found for backtrace starting at 0x400abc" = false
  /\ contains (Linux.show_ptr 16)
       "No symbols could be found for backtrace starting at 0x400abc" = false.
Proof.
  repeat split; reflexivity.
Qed.

(** C6 (amended). When [backtrace_symbols] returns its array (one string
    per frame), the result is a string and every frame [j] has its line,
    computed from its own resolved line only; the line of a frame [i]
    whose name the demangler refuses (null result, or a status other than
    zero), or in whose resolved line no name is found, is the index, ". ",
    the resolved line unchanged and the delimiter.  When
    [backtrace_symbols] returns null and the frame list is not empty, the
    result is exactly the notice about the first frame: no frame gets a
    line. *)
Theorem backtraceFramesToString_demangle_failure :
  forall (show_ptr : Z -> string)
         (backtrace_symbols : list Z -> option (list string))
         (cxa_demangle : string -> option string * Z)
         (frames : list Z) (delimiter : string),
    (forall symbols : list string,
      backtrace_symbols frames = Some symbols ->
      List.length symbols = List.length frames ->
      let lines := rendered_lines cxa_demangle symbols delimiter in
      backtraceFramesToString show_ptr backtrace_symbols cxa_demangle
        frames delimiter = Some (join_lines lines) /\
      List.length lines = List.length frames /\
      (forall (j : nat) (symbol_j : string),
          nth_error symbols j = Some symbol_j ->
          nth_error lines j
          = Some (render_frame cxa_demangle j symbol_j delimiter)) /\
      (forall (i : nat) (symbol : string),
          nth_error symbols i = Some symbol ->
          has_no_name symbol \/
          (exists pre name rest : string,
              has_name symbol pre name rest /\
              (fst (cxa_demangle name) = None \/
               snd (cxa_demangle name) <> 0)) ->
          nth_error lines i
          = Some ((show_size i ++ ". ") ++ symbol ++ delimiter))) /\
    (backtrace_symbols frames = None ->
     frames <> [] ->
     backtraceFramesToString show_ptr backtrace_symbols cxa_demangle
       frames delimiter
     = Some ("No symbols could be found for backtrace starting at "
               ++ show_ptr (nth 0 frames nullptr))).
Proof.
  intros show_ptr backtrace_symbols cxa_demangle frames delimiter. split.
  - intros symbols Hsym Hlen lines. subst lines.
    split; [now apply backtraceFramesToString_lines|].
    unfold rendered_lines. split; [now rewrite lines_from_length|]. split.
    + intros j symbol_j Hj.
      now rewrite (lines_from_nth cxa_demangle symbols delimiter 0 j symbol_j Hj).
    + intros i symbol Hnth Hfail.
      rewrite (lines_from_nth cxa_demangle symbols delimiter 0 i symbol Hnth).
      cbn [Nat.add]. f_equal.
      destruct Hfail as [Hnone | (pre & name & rest & Hname & Hrefused)].
      * apply render_frame_no_name. now apply find_name_absent.
      * now apply (render_frame_not_demangled cxa_demangle i symbol delimiter
                     pre name rest).
  - intros Hnull Hframes. now apply backtraceFramesToString_null.
Qed.

Lemma backtraceFramesToString_demangle_failure_witness :
  (has_name "./prog(main+0x2c) [0x400aec]" "./prog" "main" "0x2c) [0x400aec]" /\
   sample_demangle "main" = (None, -2) /\
   nth_error (rendered_lines sample_demangle
                [ "./prog(_Z3foov+0x10) [0x400abc]";
                  "./prog(main+0x2c) [0x400aec]" ] "|") 1
   = Some ((show_size 1 ++ ". ") ++ "./prog(main+0x2c) [0x400aec]" ++ "|")) /\
  (no_symbols [4197052; 4197100] = None /\
   [4197052; 4197100] <> [] /\
   backtraceFramesToString Linux.show_ptr no_symbols sample_demangle
     [4197052; 4197100] "|"
   = Some "No symbols could be found for backtrace starting at 0x400abc").
Proof.
  assert (Hname : has_name "./prog(main+0x2c) [0x400aec]"
                    "./prog" "main" "0x2c) [0x400aec]").
  { unfold has_name, no_char. simpl. repeat split; intuition discriminate. }
  assert (Hfail : has_no_name "./prog(main+0x2c) [0x400aec]" \/
                  (exists pre name rest : string,
                      has_name "./prog(main+0x2c) [0x400aec]" pre name rest /\
                      (fst (sample_demangle name) = None \/
                       snd (sample_demangle name) <> 0))).
  { right. exists "./prog", "main", "0x2c) [0x400aec]".
    split; [exact Hname | left; reflexivity]. }
  assert (Hframes : [4197052; 4197100] <> []) by discriminate.
  split.
  - split; [exact Hname|]. split; [reflexivity|].
    exact (proj2 (proj2 (proj2
             (proj1 (backtraceFramesToString_demangle_failure
                       Linux.show_ptr sample_symbols sample_demangle
                       [4197052; 4197100] "|")
                [ "./prog(_Z3foov+0x10) [0x400abc]";
                  "./prog(main+0x2c) [0x400aec]" ]
                eq_refl eq_refl)))
             1%nat "./prog(main+0x2c) [0x400aec]" eq_refl Hfail).
  - split; [reflexivity|]. split; [exact Hframes|].
    exact (proj2 (backtraceFramesToString_demangle_failure
                    Linux.show_ptr no_symbols sample_demangle
                    [4197052; 4197100] "|") eq_refl Hframes).
Defined.

(** C10. When the resolved line of frame [i] has no parenthesis, or no
    plus sign after its first parenthesis, no name is found (whatever the
    demangler, it is not consulted), and the line of the frame is the
    index, ". ", the resolved line unchanged and the delimiter. *)
Theorem backtraceFramesToString_passthrough :
  forall (show_ptr : Z -> string)
         (backtrace_symbols : list Z -> option (list string))
         (cxa_demangle : string -> option string * Z)
         (frames : list Z) (symbols : list string) (delimiter : string)
         (i : nat) (symbol : string),
    backtrace_symbols frames = Some symbols ->
    List.length symbols = List.length frames ->
    nth_error symbols i = Some symbol ->
    no_char "(" symbol \/
    (exists pre rest : string,
        symbol = pre ++ String "(" rest /\
        no_char "(" pre /\ no_char "+" rest) ->
    let lines := rendered_lines cxa_demangle symbols delimiter in
    find_name cxa_demangle symbol = None /\
    backtraceFramesToString show_ptr backtrace_symbols cxa_demangle
      frames delimiter = Some (join_lines lines) /\
    nth_error lines i = Some ((show_size i ++ ". ") ++ symbol ++ delimiter).
Proof.
  intros show_ptr backtrace_symbols cxa_demangle frames symbols delimiter
         i symbol Hsym Hlen Hnth Hshape lines.
  subst lines.
  pose proof (find_name_absent cxa_demangle symbol Hshape) as Hnone.
  split; [exact Hnone|].
  split; [now apply backtraceFramesToString_lines|].
  unfold rendered_lines.
  rewrite (lines_from_nth cxa_demangle symbols delimiter 0 i symbol Hnth).
  cbn [Nat.add]. f_equal. now apply render_frame_no_name.
Qed.

Lemma backtraceFramesToString_passthrough_witness :
  (no_char "(" "[0x10]" \/
   (exists pre rest : string,
       "[0x10]" = pre ++ String "(" rest /\
       no_char "(" pre /\ no_char "+" rest)) /\
  backtraceFramesToString Linux.show_ptr sample_symbols sample_demangle
    [4197052; 16] "|"
  = Some (join_lines (rendered_lines sample_demangle
                        [ "./prog(_Z3foov+0x10) [0x400abc]"; "[0x10]" ] "|")) /\
  nth_error (rendered_lines sample_demangle
               [ "./prog(_Z3foov+0x10) [0x400abc]"; "[0x10]" ] "|") 1
  = Some ((show_size 1 ++ ". ") ++ "[0x10]" ++ "|").
Proof.
  assert (Hshape : no_char "(" "[0x10]" \/
                   (exists pre rest : string,
                       "[0x10]" = pre ++ String "(" rest /\
                       no_char "(" pre /\ no_char "+" rest)).
  { left. unfold no_char. simpl. intuition discriminate. }
  split; [exact Hshape|].
  exact (proj2 (backtraceFramesToString_passthrough
                  Linux.show_ptr sample_symbols sample_demangle
                  [4197052; 16]
                  [ "./prog(_Z3foov+0x10) [0x400abc]"; "[0x10]" ] "|"
                  1%nat "[0x10]" eq_refl eq_refl eq_refl Hshape)).
Defined.

(** * Further properties of the code *)

(** ** The walk of backtraceLibUnwind *)

Section WalkFacts.

Context {cursor : Type}.
Variable U : Unwinder cursor.

(** The frames already collected stay in front. *)
Lemma unwind_loop_acc (remaining : nat) :
  forall (c : cursor) (out_frames : list Z),
    unwind_loop U remaining c out_frames
    = (out_frames ++ unwind_loop U remaining c [])%list.
Proof.
  induction remaining as [|n IH]; intros c out_frames; simpl.
  - now rewrite app_nil_r.
  - destruct (unw_step U c) as [r c']. destruct (r =? 0); [reflexivity|].
    rewrite (IH c' (out_frames ++ _)%list), (IH c' [_]).
    now rewrite <- app_assoc.
Qed.

(** One iteration: the frame of the cursor, then the rest of the walk
    unless the step returned zero. *)
Lemma unwind_loop_step (n : nat) (c : cursor) :
  unwind_loop U (S n) c []
  = reinterpret_cast (unw_get_reg U c)
      :: (if fst (unw_step U c) =? 0 then []
          else unwind_loop U n (snd (unw_step U c)) []).
Proof.
  simpl. destruct (unw_step U c) as [r c']. simpl.
  destruct (r =? 0); [reflexivity|].
  now rewrite unwind_loop_acc.
Qed.

Lemma unwind_loop_nth (n : nat) :
  forall (c : cursor) (k : nat) (frame : Z),
    nth_error (unwind_loop U n c []) k = Some frame ->
    frame = reinterpret_cast (unw_get_reg U (cursor_after U k c)) /\
    forall j : nat, (j < k)%nat ->
      fst (unw_step U (cursor_after U j c)) <> 0.
Proof.
  induction n as [|n IH]; intros c k frame Hnth.
  - destruct k; discriminate.
  - rewrite unwind_loop_step in Hnth. destruct k as [|k]; simpl in Hnth.
    + injection Hnth as <-. split; [reflexivity | intros j Hj; lia].
    + destruct (Z.eqb_spec (fst (unw_step U c)) 0) as [Hz | Hnz].
      * destruct k; discriminate.
      * destruct (IH _ k frame Hnth) as [Hframe Hsteps].
        split; [exact Hframe|].
        intros [|j] Hj; simpl; [exact Hnz | apply Hsteps; lia].
Qed.

(** The walk ends before the bound only on a step that returned zero. *)
Lemma unwind_loop_stop (n : nat) :
  forall c : cursor,
    let frames := unwind_loop U n c [] in
    List.length frames = n \/
    fst (unw_step U (cursor_after U (List.length frames - 1) c)) = 0.
Proof.
  induction n as [|n IH]; intros c frames; subst frames.
  - now left.
  - rewrite unwind_loop_step.
    destruct (Z.eqb_spec (fst (unw_step U c)) 0) as [Hz | Hnz].
    + right. simpl. exact Hz.
    + destruct (IH (snd (unw_step U c))) as [Hfull | Hstop]; cbv zeta in *.
      * left. simpl. now rewrite Hfull.
      * destruct (unwind_loop U n (snd (unw_step U c)) []) as [|f fs] eqn:Hfs.
        -- left. destruct n; [reflexivity|].
           rewrite unwind_loop_step in Hfs. discriminate.
        -- right. simpl in *. rewrite Nat.sub_0_r in *. exact Hstop.
Qed.

Lemma unwind_loop_firstn (n m : nat) :
  forall c : cursor,
    firstn n (unwind_loop U (n + m) c []) = unwind_loop U n c [].
Proof.
  induction n as [|n IH]; intros c; [reflexivity|].
  change (S n + m)%nat with (S (n + m)).
  rewrite !unwind_loop_step. cbn [firstn].
  destruct (fst (unw_step U c) =? 0).
  - now destruct n.
  - now rewrite IH.
Qed.

End WalkFacts.

(** X1. With an unwinder and a cursor that initialises, the result is
    never empty, and its frame [k] is the instruction pointer of the
    cursor [k] steps after the initial one: the frames are in walk order,
    innermost first, and every step before frame [k] returned a value
    other than zero. *)
Theorem getBacktraceFrames_walk_order :
  forall (cursor : Type) (U : Unwinder cursor) (T : Target)
         (context : ucontext_t),
    USE_UNWIND T = true ->
    0 <= fst (unw_init_local2 U context) ->
    let c0 := snd (unw_init_local2 U context) in
    let frames := getBacktraceFrames U T context in
    frames <> [] /\
    forall (k : nat) (frame : Z),
      nth_error frames k = Some frame ->
      frame = reinterpret_cast (unw_get_reg U (cursor_after U k c0)) /\
      forall j : nat, (j < k)%nat ->
        fst (unw_step U (cursor_after U j c0)) <> 0.
Proof.
  intros cursor U T context Huse Hinit c0 frames. subst c0 frames.
  unfold getBacktraceFrames, backtraceLibUnwind. rewrite Huse.
  destruct (unw_init_local2 U context) as [r c]. cbn [fst snd] in *.
  destruct (Z.leb_spec 0 r); [|lia]. split.
  - change max_frames with (S 49). rewrite unwind_loop_step. discriminate.
  - intros k frame Hnth. now apply (unwind_loop_nth U max_frames).
Qed.

Lemma getBacktraceFrames_walk_order_witness :
  USE_UNWIND (Linux.target true) = true /\
  0 <= fst (unw_init_local2 (stack_unwinder [4197052; 4197100])
              (Linux.context 4197052 0)) /\
  getBacktraceFrames (stack_unwinder [4197052; 4197100]) (Linux.target true)
    (Linux.context 4197052 0) <> [].
Proof.
  assert (Hinit : 0 <= fst (unw_init_local2 (stack_unwinder [4197052; 4197100])
                              (Linux.context 4197052 0))).
  { simpl. lia. }
  split; [reflexivity|]. split; [exact Hinit|].
  exact (proj1 (getBacktraceFrames_walk_order (list Z)
                  (stack_unwinder [4197052; 4197100]) (Linux.target true)
                  (Linux.context 4197052 0) eq_refl Hinit)).
Defined.

(** X2. With an unwinder and a cursor that initialises, the walk returns
    fewer than 50 frames only when the step at its last frame returned
    zero; a negative (error) result of [unw_step] does not end it. *)
Theorem getBacktraceFrames_stops_on_zero :
  forall (cursor : Type) (U : Unwinder cursor) (T : Target)
         (context : ucontext_t),
    USE_UNWIND T = true ->
    0 <= fst (unw_init_local2 U context) ->
    let c0 := snd (unw_init_local2 U context) in
    let frames := getBacktraceFrames U T context in
    List.length frames = 50%nat \/
    fst (unw_step U (cursor_after U (List.length frames - 1) c0)) = 0.
Proof.
  intros cursor U T context Huse Hinit c0 frames. subst c0 frames.
  unfold getBacktraceFrames, backtraceLibUnwind. rewrite Huse.
  destruct (unw_init_local2 U context) as [r c]. cbn [fst snd] in *.
  destruct (Z.leb_spec 0 r); [|lia].
  exact (unwind_loop_stop U max_frames c).
Qed.

Lemma getBacktraceFrames_stops_on_zero_witness :
  0 <= fst (unw_init_local2 (erroring 4197052) (Linux.context 4197052 0)) /\
  List.length (getBacktraceFrames (erroring 4197052) (Linux.target true)
                 (Linux.context 4197052 0)) = 50%nat.
Proof.
  assert (Hinit : 0 <= fst (unw_init_local2 (erroring 4197052)
                              (Linux.context 4197052 0))).
  { simpl. lia. }
  split; [exact Hinit|].
  destruct (getBacktraceFrames_stops_on_zero unit (erroring 4197052)
              (Linux.target true) (Linux.context 4197052 0) eq_refl Hinit)
    as [Hfull | Hzero].
  - exact Hfull.
  - simpl in Hzero. discriminate Hzero.
Defined.

(** X3. The depth bound only truncates: the frames collected with bound
    [n] are the first [n] frames of those collected with any larger
    bound. *)
Theorem backtraceLibUnwind_bound_truncates :
  forall (cursor : Type) (U : Unwinder cursor) (n m : nat)
         (context : ucontext_t),
    firstn n (backtraceLibUnwind U (n + m) context)
    = backtraceLibUnwind U n context.
Proof.
  intros cursor U n m context. unfold backtraceLibUnwind.
  destruct (unw_init_local2 U context) as [r c].
  destruct (0 <=? r); [apply unwind_loop_firstn | apply firstn_nil].
Qed.

(** ** The texts of signalToErrorMessage *)

(** [err_mask & 0x02] is not zero exactly when bit 1 of [err_mask] is
    set. *)
Lemma land_2_testbit (x : Z) :
  (Z.land x 2 =? 0) = negb (Z.testbit x 1).
Proof.
  assert (Hland : Z.land x (2 ^ 1) = if Z.testbit x 1 then 2 ^ 1 else 0).
  { apply Z.bits_inj'. intros n Hn.
    rewrite Z.land_spec, Z.pow2_bits_eqb by lia.
    destruct (Z.eqb_spec 1 n) as [<- | Hne].
    - rewrite andb_true_r. destruct (Z.testbit x 1).
      + now rewrite Z.pow2_bits_true by lia.
      + now rewrite Z.bits_0.
    - rewrite andb_false_r. destruct (Z.testbit x 1).
      + rewrite Z.pow2_bits_eqb by lia.
        now destruct (Z.eqb_spec 1 n).
      + now rewrite Z.bits_0. }
  change (2 ^ 1) with 2 in Hland. rewrite Hland.
  now destruct (Z.testbit x 1).
Qed.

Lemma string_app_inv_head (a x y : string) : a ++ x = a ++ y -> x = y.
Proof.
  induction a as [|c a IH]; simpl; intros H; [exact H|].
  injection H as H. now apply IH.
Qed.

(** Walks down a chain of [if code =? label] that is claimed equal to the
    default text: a branch that is taken gives another text. *)
Ltac refute_switch Hin :=
  repeat match goal with
         | |- context [Z.eqb ?a ?b] =>
             destruct (Z.eqb_spec a b); cbv iota; [intro; discriminate|]
         end;
  intros _; simpl in Hin;
  repeat (destruct Hin as [Hin | Hin]; [congruence|]);
  contradiction.

Lemma segv_reason_known (K : Signals) (code addr : Z) :
  In code (labels (segv_phrases K)) ->
  segv_reason K {| si_addr := addr; si_code := code |} <> " Unknown si_code.".
Proof.
  unfold segv_reason, segv_phrases, labels. cbn [si_code]. intros Hin.
  unfold not. refute_switch Hin.
Qed.

Lemma bus_message_known (K : Signals) (code addr : Z) :
  In code (bus_labels K) ->
  bus_message K {| si_addr := addr; si_code := code |} <> "Unknown si_code.".
Proof.
  unfold bus_message, bus_labels, bus_phrases, labels, optional_label, is_case.
  cbn [si_code]. intros Hin. unfold not.
  destruct (BUS_MCEERR_AR K), (BUS_MCEERR_AO K); refute_switch Hin.
Qed.

Lemma ill_message_known (K : Signals) (code addr : Z) :
  In code (labels (ill_phrases K)) ->
  ill_message K {| si_addr := addr; si_code := code |} <> "Unknown si_code.".
Proof.
  unfold ill_message, ill_phrases, labels. cbn [si_code]. intros Hin.
  unfold not. refute_switch Hin.
Qed.

Lemma fpe_message_known (K : Signals) (code addr : Z) :
  In code (labels (fpe_phrases K)) ->
  fpe_message K {| si_addr := addr; si_code := code |} <> "Unknown si_code.".
Proof.
  unfold fpe_message, fpe_phrases, labels. cbn [si_code]. intros Hin.
  unfold not. refute_switch Hin.
Qed.

Lemma segv_message_not_empty
    (T : Target) (K : Signals) (show_ptr : Z -> string)
    (info : siginfo_t) (context : ucontext_t) :
  segv_message T K show_ptr info context <> "".
Proof.
  unfold segv_message, segv_address.
  destruct (nullptr =? si_addr info); discriminate.
Qed.

Lemma bus_message_not_empty (K : Signals) (info : siginfo_t) :
  bus_message K info <> "".
Proof.
  unfold bus_message.
  repeat match goal with
         | |- context [if ?b then _ else _] => destruct b
         end; discriminate.
Qed.

Lemma ill_message_not_empty (K : Signals) (info : siginfo_t) :
  ill_message K info <> "".
Proof.
  unfold ill_message.
  repeat match goal with
         | |- context [if ?b then _ else _] => destruct b
         end; discriminate.
Qed.

Lemma fpe_message_not_empty (K : Signals) (info : siginfo_t) :
  fpe_message K info <> "".
Proof.
  unfold fpe_message.
  repeat match goal with
         | |- context [if ?b then _ else _] => destruct b
         end; discriminate.
Qed.

(** X4. On x86-64 outside FreeBSD and macOS, the SIGSEGV text names the
    access between the address and the reason: " Access: write." exactly
    when bit 1 of the error register [gregs[REG_ERR]] is set, whatever the
    other bits, and " Access: read." otherwise. *)
Theorem signalToErrorMessage_access_bit :
  forall (T : Target) (K : Signals) (show_ptr : Z -> string)
         (info : siginfo_t) (context : ucontext_t),
    x86_64 T = true -> FreeBSD T = false -> APPLE T = false ->
    signalToErrorMessage T K show_ptr (SIGSEGV K) info context
    = segv_address show_ptr info
        ++ (if Z.testbit (gregs_REG_ERR context) 1
            then " Access: write." else " Access: read.")
        ++ segv_reason K info.
Proof.
  intros T K show_ptr info context Hx86 Hbsd Hmac.
  rewrite signalToErrorMessage_SIGSEGV. do 2 f_equal.
  unfold segv_access. rewrite Hx86, Hbsd, Hmac. cbn [andb negb].
  rewrite land_2_testbit, negb_involutive. reflexivity.
Qed.

Lemma signalToErrorMessage_access_bit_witness :
  signalToErrorMessage (Linux.target true) Linux.signals Linux.show_ptr
    (SIGSEGV Linux.signals) {| si_addr := 16; si_code := 2 |}
    (Linux.context 4197052 7)
  = "Address: 0x10 Access: write. Attempted access has violated the permissions assigned to the memory area.".
Proof.
  exact (signalToErrorMessage_access_bit
           (Linux.target true) Linux.signals Linux.show_ptr
           {| si_addr := 16; si_code := 2 |} (Linux.context 4197052 7)
           eq_refl eq_refl eq_refl).
Defined.

(** X5. The result is the empty string exactly when the signal is none of
    SIGSEGV, SIGBUS, SIGILL and SIGFPE: for each of the four, whatever the
    fine-grained code, some text is written. *)
Theorem signalToErrorMessage_empty_iff :
  forall (T : Target) (K : Signals) (show_ptr : Z -> string)
         (sig : Z) (info : siginfo_t) (context : ucontext_t),
    signalToErrorMessage T K show_ptr sig info context = "" <->
    ~ In sig (specialized_signals K).
Proof.
  intros T K show_ptr sig info context. split.
  - intros Hempty Hin. revert Hempty. unfold signalToErrorMessage.
    destruct (Z.eqb_spec sig (SIGSEGV K)); [apply segv_message_not_empty|].
    destruct (Z.eqb_spec sig (SIGBUS K)); [apply bus_message_not_empty|].
    destruct (Z.eqb_spec sig (SIGILL K)); [apply ill_message_not_empty|].
    destruct (Z.eqb_spec sig (SIGFPE K)); [apply fpe_message_not_empty|].
    intros _. unfold specialized_signals in Hin. simpl in Hin.
    repeat (destruct Hin as [Hin | Hin]; [congruence|]). contradiction.
  - intros Hout. unfold signalToErrorMessage, specialized_signals in *.
    walk_switch.
Qed.

Lemma signalToErrorMessage_empty_iff_witness :
  signalToErrorMessage (Linux.target true) Linux.signals Linux.show_ptr
    (SIGILL Linux.signals) {| si_addr := 16; si_code := 99 |}
    (Linux.context 4197052 7) <> "".
Proof.
  intros Hempty.
  apply (proj1 (signalToErrorMessage_empty_iff
                  (Linux.target true) Linux.signals Linux.show_ptr
                  (SIGILL Linux.signals) {| si_addr := 16; si_code := 99 |}
                  (Linux.context 4197052 7)) Hempty).
  simpl. auto.
Defined.

(** X6. When the four signal numbers differ, "Unknown si_code." is
    written exactly for the codes that are no [case] label of the signal's
    [switch]; a code that is a label (for SIGBUS also [BUS_ADRERR]) never
    gives it. *)
Theorem signalToErrorMessage_unknown_iff :
  forall (T : Target) (K : Signals) (show_ptr : Z -> string)
         (info : siginfo_t) (context : ucontext_t),
    NoDup (specialized_signals K) ->
    let message sig := signalToErrorMessage T K show_ptr sig info context in
    (message (SIGSEGV K)
       = segv_address show_ptr info ++ segv_access T context
           ++ " Unknown si_code."
     <-> ~ In (si_code info) (labels (segv_phrases K))) /\
    (message (SIGBUS K) = "Unknown si_code."
     <-> ~ In (si_code info) (bus_labels K)) /\
    (message (SIGILL K) = "Unknown si_code."
     <-> ~ In (si_code info) (labels (ill_phrases K))) /\
    (message (SIGFPE K) = "Unknown si_code."
     <-> ~ In (si_code info) (labels (fpe_phrases K))).
Proof.
  intros T K show_ptr [addr code] context Hsig message. subst message.
  cbn [si_code].
  rewrite signalToErrorMessage_SIGSEGV, signalToErrorMessage_SIGBUS,
    signalToErrorMessage_SIGILL, signalToErrorMessage_SIGFPE by assumption.
  split; [|split; [|split]]; split.
  - intros Heq Hin. apply (segv_reason_known K code addr Hin).
    now apply string_app_inv_head in Heq; apply string_app_inv_head in Heq.
  - intros Hout. now rewrite segv_reason_unknown.
  - intros Heq Hin. now apply (bus_message_known K code addr Hin).
  - apply bus_message_unknown.
  - intros Heq Hin. now apply (ill_message_known K code addr Hin).
  - apply ill_message_unknown.
  - intros Heq Hin. now apply (fpe_message_known K code addr Hin).
  - apply fpe_message_unknown.
Qed.

Lemma signalToErrorMessage_unknown_iff_witness :
  NoDup (specialized_signals Linux.signals) /\
  ~ In 9 (bus_labels Linux.signals) /\
  signalToErrorMessage (Linux.target true) Linux.signals Linux.show_ptr
    (SIGBUS Linux.signals) {| si_addr := 16; si_code := 9 |}
    (Linux.context 4197052 7) = "Unknown si_code.".
Proof.
  assert (Hout : ~ In 9 (bus_labels Linux.signals)).
  { simpl. intuition discriminate. }
  split; [exact (proj1 linux_distinct_labels)|]. split; [exact Hout|].
  exact (proj2 (proj1 (proj2 (signalToErrorMessage_unknown_iff
                                (Linux.target true) Linux.signals
                                Linux.show_ptr
                                {| si_addr := 16; si_code := 9 |}
                                (Linux.context 4197052 7)
                                (proj1 linux_distinct_labels)))) Hout).
Defined.

(** ** The lines of backtraceFramesToString *)

Lemma strchr_found (c : ascii) (s : string) :
  forall n : nat,
    strchr s c = Some n ->
    exists pre rest : string,
      s = pre ++ String c rest /\ no_char c pre /\ String.length pre = n.
Proof.
  unfold no_char. induction s as [|a s IH]; simpl; intros n Hfound.
  - discriminate.
  - destruct (Ascii.eqb_spec a c) as [-> | Hne].
    + injection Hfound as <-. exists "", s. simpl. auto.
    + destruct (strchr s c) as [m|]; [|discriminate].
      injection Hfound as <-.
      destruct (IH m eq_refl) as (pre & rest & -> & Hpre & Hlen).
      exists (String a pre), rest. simpl.
      repeat split; [|now rewrite Hlen].
      intros [Heq | Hin]; [congruence | now apply Hpre].
Qed.

Lemma strchr_not_found (c : ascii) (s : string) :
  strchr s c = None -> no_char c s.
Proof.
  unfold no_char. induction s as [|a s IH]; simpl; intros Hnone.
  - auto.
  - destruct (Ascii.eqb_spec a c) as [-> | Hne]; [discriminate|].
    destruct (strchr s c); [discriminate|].
    intros [Heq | Hin]; [congruence | now apply IH].
Qed.

(** Every resolved line either has no name or is [pre ( name + rest]. *)
Lemma symbol_shape (symbol : string) :
  has_no_name symbol \/
  exists pre name rest : string, has_name symbol pre name rest.
Proof.
  destruct (strchr symbol "(") as [n|] eqn:Hparen.
  - destruct (strchr_found "(" symbol n Hparen) as (pre & tail & -> & Hpre & _).
    destruct (strchr tail "+") as [m|] eqn:Hplus.
    + destruct (strchr_found "+" tail m Hplus) as (name & rest & -> & Hname & _).
      right. exists pre, name, rest. now repeat split.
    + left. right. exists pre, tail.
      repeat split; [exact Hpre | now apply strchr_not_found].
  - left. left. now apply strchr_not_found.
Qed.

(** X7. With the array of [backtrace_symbols], the line of every frame
    [i] is of one of two forms.  When the text between the first
    parenthesis of the resolved line and the first plus sign after it is
    demangled (non-null result, status zero), the line is the index, ". ",
    the resolved line with the demangled name in the place of that text.
    In every other case (no such text, or the demangler refuses it) the
    line is the index, ". ", the resolved line unchanged and the
    delimiter. *)
Theorem backtraceFramesToString_line_forms :
  forall (show_ptr : Z -> string)
         (backtrace_symbols : list Z -> option (list string))
         (cxa_demangle : string -> option string * Z)
         (frames : list Z) (symbols : list string) (delimiter : string)
         (i : nat) (symbol : string),
    backtrace_symbols frames = Some symbols ->
    List.length symbols = List.length frames ->
    nth_error symbols i = Some symbol ->
    let lines := rendered_lines cxa_demangle symbols delimiter in
    backtraceFramesToString show_ptr backtrace_symbols cxa_demangle
      frames delimiter = Some (join_lines lines) /\
    ((exists pre name rest demangled : string,
         has_name symbol pre name rest /\
         cxa_demangle name = (Some demangled, 0) /\
         nth_error lines i
         = Some ((show_size i ++ ". ")
                   ++ (pre ++ "(") ++ demangled ++ String "+" rest)) \/
     ((has_no_name symbol \/
       exists pre name rest : string,
         has_name symbol pre name rest /\
         (fst (cxa_demangle name) = None \/ snd (cxa_demangle name) <> 0)) /\
      nth_error lines i
      = Some ((show_size i ++ ". ") ++ symbol ++ delimiter))).
Proof.
  intros show_ptr backtrace_symbols cxa_demangle frames symbols delimiter
         i symbol Hsym Hlen Hnth lines.
  subst lines. split; [now apply backtraceFramesToString_lines|].
  unfold rendered_lines.
  rewrite (lines_from_nth cxa_demangle symbols delimiter 0 i symbol Hnth).
  cbn [Nat.add].
  destruct (symbol_shape symbol) as [Hnone | (pre & name & rest & Hname)].
  - right. split; [now left|]. f_equal.
    apply render_frame_no_name. now apply find_name_absent.
  - destruct (cxa_demangle name) as [[demangled|] status] eqn:Hdem.
    + destruct (Z.eq_dec status 0) as [-> | Hstatus].
      * left. exists pre, name, rest, demangled.
        repeat split; try assumption; try apply Hname. f_equal.
        now apply (render_frame_demangled cxa_demangle i symbol delimiter
                     pre name rest demangled).
      * right. split.
        -- right. exists pre, name, rest. split; [exact Hname|].
           right. now rewrite Hdem.
        -- f_equal.
           apply (render_frame_not_demangled cxa_demangle i symbol delimiter
                    pre name rest Hname).
           right. now rewrite Hdem.
    + right. split.
      * right. exists pre, name, rest. split; [exact Hname|].
        left. now rewrite Hdem.
      * f_equal.
        apply (render_frame_not_demangled cxa_demangle i symbol delimiter
                 pre name rest Hname).
        left. now rewrite Hdem.
Qed.

Lemma backtraceFramesToString_line_forms_witness :
  backtraceFramesToString Linux.show_ptr sample_symbols sample_demangle
    [4197052; 4197100] "|"
  = Some (join_lines
            (rendered_lines sample_demangle
               [ "./prog(_Z3foov+0x10) [0x400abc]";
                 "./prog(main+0x2c) [0x400aec]" ] "|")).
Proof.
  exact (proj1 (backtraceFramesToString_line_forms
                  Linux.show_ptr sample_symbols sample_demangle
                  [4197052; 4197100]
                  [ "./prog(_Z3foov+0x10) [0x400abc]";
                    "./prog(main+0x2c) [0x400aec]" ] "|"
                  0%nat "./prog(_Z3foov+0x10) [0x400abc]"
                  eq_refl eq_refl eq_refl)).
Defined.

Section RenderBounds.

Variable show_ptr : Z -> string.
Variable backtrace_symbols : list Z -> option (list string).
Variable cxa_demangle : string -> option string * Z.

(** The loop reads [symbols[i]] for the [remaining] indices from [i] on
    and no other. *)
Lemma render_loop_reads (delimiter : string) (remaining : nat) :
  forall (rest done : list string) (backtrace : string),
    ((remaining <= List.length rest)%nat ->
     render_loop cxa_demangle (done ++ rest)%list delimiter
       remaining (List.length done) backtrace
     = Some (backtrace
               ++ join_lines (lines_from cxa_demangle (List.length done)
                                (firstn remaining rest) delimiter))) /\
    ((List.length rest < remaining)%nat ->
     render_loop cxa_demangle (done ++ rest)%list delimiter
       remaining (List.length done) backtrace
     = None).
Proof.
  induction remaining as [|n IH]; intros rest done backtrace.
  - split; [intros _ | simpl; lia]. simpl. now rewrite string_app_nil_r.
  - destruct rest as [|s rest]; cbn [render_loop].
    + split; [simpl; lia | intros _].
      rewrite app_nil_r.
      now rewrite (proj2 (nth_error_None done (List.length done)) (le_n _)).
    + rewrite nth_error_app2 by lia. rewrite Nat.sub_diag. cbn [nth_error].
      replace (done ++ s :: rest)%list with ((done ++ [s]) ++ rest)%list
        by now rewrite <- app_assoc.
      replace (S (List.length done)) with (List.length (done ++ [s])%list)
        by (rewrite length_app; simpl; lia).
      destruct (IH rest (done ++ [s])%list
                  (backtrace ++ render_frame cxa_demangle (List.length done)
                                  s delimiter)) as [Hin Hout].
      split; intros Hlen; simpl in Hlen.
      * rewrite Hin by lia. cbn [firstn lines_from join_lines fold_right].
        rewrite string_app_assoc.
        replace (List.length (done ++ [s])%list) with (S (List.length done))
          by (rewrite length_app; simpl; lia).
        reflexivity.
      * apply Hout. lia.
Qed.

End RenderBounds.

(** X8. The loop reads one string of the [backtrace_symbols] array per
    frame, at the indices below [frames.size()]: strings beyond that are
    not used, and the result is the lines of the first [frames.size()]
    strings; an array with fewer strings than frames makes it read past
    the end (undefined in C, no result in the model). *)
Theorem backtraceFramesToString_reads_within_frames :
  forall (show_ptr : Z -> string)
         (backtrace_symbols : list Z -> option (list string))
         (cxa_demangle : string -> option string * Z)
         (frames : list Z) (symbols : list string) (delimiter : string),
    backtrace_symbols frames = Some symbols ->
    ((List.length frames <= List.length symbols)%nat ->
     backtraceFramesToString show_ptr backtrace_symbols cxa_demangle
       frames delimiter
     = Some (join_lines
               (rendered_lines cxa_demangle
                  (firstn (List.length frames) symbols) delimiter))) /\
    ((List.length symbols < List.length frames)%nat ->
     backtraceFramesToString show_ptr backtrace_symbols cxa_demangle
       frames delimiter = None).
Proof.
  intros show_ptr backtrace_symbols cxa_demangle frames symbols delimiter Hsym.
  unfold backtraceFramesToString, rendered_lines. rewrite Hsym.
  exact (render_loop_reads cxa_demangle delimiter (List.length frames)
           symbols [] "").
Qed.

Lemma backtraceFramesToString_reads_within_frames_witness :
  backtraceFramesToString Linux.show_ptr
    (fun _ => Some ["[0x10]"; "[0x20]"; "[0x30]"]) sample_demangle
    [16; 32] "|"
  = Some "0. [0x10]|1. [0x20]|".
Proof.
  assert (Hlen : (List.length [16; 32]
                  <= List.length ["[0x10]"; "[0x20]"; "[0x30]"])%nat).
  { simpl. lia. }
  exact (proj1 (backtraceFramesToString_reads_within_frames
                  Linux.show_ptr
                  (fun _ => Some ["[0x10]"; "[0x20]"; "[0x30]"])
                  sample_demangle [16; 32]
                  ["[0x10]"; "[0x20]"; "[0x30]"] "|" eq_refl) Hlen).
Defined.

(** ** getBacktraceFrames followed by backtraceFramesToString *)

(** X9. When the walk degrades to no frame (the cursor does not
    initialise, or there is no unwinder and the instruction pointer is
    null), rendering its result gives the empty string, whatever
    [backtrace_symbols] returns. *)
Theorem degraded_walk_renders_empty :
  forall (cursor : Type) (U : Unwinder cursor) (T : Target)
         (context : ucontext_t)
         (show_ptr : Z -> string)
         (backtrace_symbols : list Z -> option (list string))
         (cxa_demangle : string -> option string * Z)
         (delimiter : string),
    (USE_UNWIND T = true /\ fst (unw_init_local2 U context) < 0) \/
    (USE_UNWIND T = false /\ getCallerAddress T context = nullptr) ->
    backtraceFramesToString show_ptr backtrace_symbols cxa_demangle
      (getBacktraceFrames U T context) delimiter = Some "".
Proof.
  intros cursor U T context show_ptr backtrace_symbols cxa_demangle delimiter
         [[Huse Hinit] | [Huse Hnull]].
  - unfold getBacktraceFrames. rewrite Huse.
    rewrite (backtraceLibUnwind_init_failed U max_frames context Hinit).
    apply backtraceFramesToString_empty.
  - rewrite (getBacktraceFrames_fallback U T context Huse), Hnull.
    apply backtraceFramesToString_empty.
Qed.

Lemma degraded_walk_renders_empty_witness :
  backtraceFramesToString Linux.show_ptr no_symbols sample_demangle
    (getBacktraceFrames uninitialisable (Linux.target true)
       (Linux.context 4197052 0)) "|" = Some "".
Proof.
  assert (Hinit : fst (unw_init_local2 uninitialisable
                         (Linux.context 4197052 0)) < 0).
  { simpl. lia. }
  exact (degraded_walk_renders_empty unit uninitialisable (Linux.target true)
           (Linux.context 4197052 0) Linux.show_ptr no_symbols sample_demangle
           "|" (or_introl (conj eq_refl Hinit))).
Defined.

(** X10. Without unwinder and with a non-null instruction pointer, the
    rendered trace is about that one address: the notice that no symbols
    could be found for it when [backtrace_symbols] returns null, and
    otherwise the single line of index 0 of its resolved line. *)
Theorem fallback_trace_single_line :
  forall (cursor : Type) (U : Unwinder cursor) (T : Target)
         (context : ucontext_t)
         (show_ptr : Z -> string)
         (backtrace_symbols : list Z -> option (list string))
         (cxa_demangle : string -> option string * Z)
         (delimiter : string),
    USE_UNWIND T = false ->
    getCallerAddress T context <> nullptr ->
    let caller_address := getCallerAddress T context in
    let trace :=
      backtraceFramesToString show_ptr backtrace_symbols cxa_demangle
        (getBacktraceFrames U T context) delimiter in
    (backtrace_symbols [caller_address] = None ->
     trace = Some ("No symbols could be found for backtrace starting at "
                     ++ show_ptr caller_address)) /\
    (forall symbol : string,
        backtrace_symbols [caller_address] = Some [symbol] ->
        trace = Some (render_frame cxa_demangle 0 symbol delimiter)).
Proof.
  intros cursor U T context show_ptr backtrace_symbols cxa_demangle delimiter
         Huse Hnz caller_address trace. subst caller_address trace.
  rewrite (getBacktraceFrames_fallback U T context Huse).
  destruct (Z.eqb_spec (getCallerAddress T context) nullptr); [contradiction|].
  unfold backtraceFramesToString. split.
  - intros ->. reflexivity.
  - intros symbol ->. reflexivity.
Qed.

Lemma fallback_trace_single_line_witness :
  getCallerAddress (Linux.target false) (Linux.context 4197052 0) <> nullptr /\
  backtraceFramesToString Linux.show_ptr sample_symbols sample_demangle
    (getBacktraceFrames uninitialisable (Linux.target false)
       (Linux.context 4197052 0)) "|"
  = Some "0. ./prog(foo()+0x10) [0x400abc]".
Proof.
  assert (Hnz : getCallerAddress (Linux.target false)
                  (Linux.context 4197052 0) <> nullptr).
  { discriminate. }
  split; [exact Hnz|].
  exact (proj2 (fallback_trace_single_line unit uninitialisable
                  (Linux.target false) (Linux.context 4197052 0)
                  Linux.show_ptr sample_symbols sample_demangle "|"
                  eq_refl Hnz)
           "./prog(_Z3foov+0x10) [0x400abc]" eq_refl).
Defined.
